(** * The Foxy withdraw step: amount validation, allowance check, gas estimate

    A shallow embedding of
    [src/features/defi/providers/foxy/components/FoxyManager/Withdraw/components/Withdraw.tsx]:
    the handlers [getWithdrawGasEstimate], [getApproveGasEstimate],
    [handleContinue], [handlePercentClick], [validateCryptoAmount] and
    [validateFiatAmount] of the [Withdraw] component.

    The handlers are asynchronous and effectful.  A run of a handler is a
    value of the monad [M]: the ordered trace of the effects it performed
    (dispatched actions, wizard transitions, notifications, log lines and
    calls of the chain API) together with what it returned or threw. *)

From Stdlib Require Import ZArith QArith Qabs List String Ascii Bool Lia Lqa.
From Stdlib Require Import DecimalString.
Import ListNotations.

Local Open Scope string_scope.
Local Open Scope Z_scope.
Local Open Scope Q_scope.
Local Open Scope list_scope.

(** ** Decimal numbers *)

Module BigNumber.

(** Modelled from the spec: the [bignumber.js] package behind
    [lib/bignumber/bignumber] is not among the sources.  Section 9 of the
    specification asks for arbitrary-precision decimal arithmetic that
    rounds only where a rounding mode is given, so a finite value is an
    exact rational; next to the finite values the library has NaN and the
    two infinities, which is what [bnOrZero] exists to filter out. *)
Inductive t : Type :=
| Fin (q : Q)
| NaN
| Inf (negative : bool).

Inductive RoundingMode : Type :=
| ROUND_DOWN       (* towards zero *)
| ROUND_HALF_UP.   (* to nearest, a tie away from zero: the library default *)

Definition zero : t := Fin 0.

Definition ofZ (z : Z) : t := Fin (inject_Z z).

Definition isFinite (x : t) : bool :=
  match x with Fin _ => true | _ => false end.

Definition Qsign_neg (q : Q) : bool := (Qnum q <? 0)%Z.
Definition Qis_zero (q : Q) : bool := (Qnum q =? 0)%Z.

(** [x.comparedTo(y)]: [None] when either side is NaN. *)
Definition comparedTo (x y : t) : option comparison :=
  match x, y with
  | NaN, _ | _, NaN => None
  | Fin a, Fin b => Some (a ?= b)
  | Fin _, Inf n => Some (if n then Gt else Lt)
  | Inf n, Fin _ => Some (if n then Lt else Gt)
  | Inf n, Inf m =>
      Some (match n, m with
            | true, false => Lt
            | false, true => Gt
            | _, _ => Eq
            end)
  end.

Definition gt (x y : t) : bool :=
  match comparedTo x y with Some Gt => true | _ => false end.

Definition gte (x y : t) : bool :=
  match comparedTo x y with Some Gt | Some Eq => true | _ => false end.

Definition isEqualTo (x y : t) : bool :=
  match comparedTo x y with Some Eq => true | _ => false end.

Definition times (x y : t) : t :=
  match x, y with
  | NaN, _ | _, NaN => NaN
  | Fin a, Fin b => Fin (a * b)
  | Fin a, Inf n | Inf n, Fin a =>
      if Qis_zero a then NaN else Inf (xorb n (Qsign_neg a))
  | Inf n, Inf m => Inf (xorb n m)
  end.

Definition div (x y : t) : t :=
  match x, y with
  | NaN, _ | _, NaN => NaN
  | Fin a, Fin b =>
      if Qis_zero b
      then (if Qis_zero a then NaN else Inf (Qsign_neg a))
      else Fin (a / b)
  | Fin _, Inf _ => Fin 0
  | Inf n, Fin b => Inf (xorb n (Qsign_neg b))
  | Inf _, Inf _ => NaN
  end.

(** [10^n], the value of the literal [`1e+${n}`]. *)
Definition pow10 (n : nat) : Q := inject_Z (10 ^ Z.of_nat n).

(** The integer nearest to [q] in the direction the mode gives. *)
Definition roundZ (rm : RoundingMode) (q : Q) : Z :=
  match rm with
  | ROUND_DOWN => Z.quot (Qnum q) (Zpos (Qden q))
  | ROUND_HALF_UP =>
      (Z.sgn (Qnum q) * ((2 * Z.abs (Qnum q) + Zpos (Qden q)) / (2 * Zpos (Qden q))))%Z
  end.

(** [q] rounded to [dp] decimal places. *)
Definition roundQ (dp : nat) (rm : RoundingMode) (q : Q) : Q :=
  inject_Z (roundZ rm (q * pow10 dp)) / pow10 dp.

(** [x.decimalPlaces(dp, rm)], also spelled [x.dp(dp, rm)]. *)
Definition decimalPlaces (x : t) (dp : nat) (rm : RoundingMode) : t :=
  match x with
  | Fin q => Fin (roundQ dp rm q)
  | other => other
  end.

(** The decimal numeral of an integer. *)
Definition intString (z : Z) : string := NilZero.string_of_int (Z.to_int z).

(** [x.toFixed(0)]: the value rounded to an integer with the default mode,
    in plain notation. *)
Definition toFixed0 (x : t) : string :=
  match x with
  | Fin q => intString (roundZ ROUND_HALF_UP q)
  | NaN => "NaN"
  | Inf n => if n then "-Infinity" else "Infinity"
  end.

End BigNumber.

(** ** JavaScript values the component handles *)

(** A value caught by [catch]: an instance of [Error] with its message, or
    anything else that was thrown. *)
Inductive Thrown : Type :=
| ErrorObject (message : string)
| NonError (value : string).

(** [s.includes(sub)]. *)
Fixpoint includes (s sub : string) : bool :=
  if String.prefix sub s then true
  else match s with
       | EmptyString => false
       | String _ rest => includes rest sub
       end.

(** Truthiness of a string that may be undefined: [!x] holds for [undefined]
    and for the empty string.  The result is the string when it is truthy. *)
Definition truthy (x : option string) : option string :=
  match x with
  | Some s => if (s =? "")%string then None else Some s
  | None => None
  end.

(** [WithdrawType] of [@shapeshiftoss/types]. *)
Inductive WithdrawType : Type := DELAYED | INSTANT.

(** [DefiStep], the two steps this component advances to. *)
Inductive DefiStep : Type := Confirm | Approve.

(** [Field], the names of the form fields. *)
Inductive Field : Type := FiatAmount | CryptoAmount | WithdrawTypeField.

(** [FoxyWithdrawValues], the submitted form. *)
Record FoxyWithdrawValues : Type := {
  cryptoAmount : string;
  fiatAmount : string;
  withdrawType : WithdrawType
}.

(** ** The chain API *)

(** The calls of [api] (the [foxy] object of [useFoxy]) with their input. *)
Inductive ApiRequest : Type :=
| Allowance (tokenContractAddress : option string) (contractAddress userAddress : string)
| EstimateWithdrawGas (tokenContractAddress contractAddress : string)
    (amountDesired : BigNumber.t) (userAddress : string) (type : WithdrawType)
| EstimateApproveGas (tokenContractAddress contractAddress userAddress : string)
| GetGasPrice.

(** Modelled from the spec: the [foxy] API object is not among the sources.
    Section 6 gives every call a number as its result; a promise resolves
    with that number, as [bn] reads it, or rejects with what was thrown. *)
Inductive Settled : Type :=
| Resolved (value : BigNumber.t)
| Rejected (reason : Thrown).

(** The API as the component meets it: how each call settles and, when the
    two calls given to one [Promise.all] both reject, whether the gas price
    call is the one that rejects first. *)
Record FoxyApi : Type := {
  settle : ApiRequest -> Settled;
  gasPriceRejectsFirst : bool
}.

(** ** Wizard state and actions *)

(** The payload of [SET_WITHDRAW]: the submitted form, or the fee alone. *)
Inductive WithdrawPayload : Type :=
| FormValues (values : FoxyWithdrawValues)
| EstimatedGasCrypto (estimatedGasCrypto : string).

(** [FoxyWithdrawActionType] with the payloads this component sends. *)
Inductive FoxyWithdrawAction : Type :=
| SET_WITHDRAW (payload : WithdrawPayload)
| SET_APPROVE (estimatedGasCrypto : string)
| SET_LOADING (payload : bool).

Record WithdrawSlot : Type := {
  values : option FoxyWithdrawValues;
  withdrawGas : option string
}.

(** The state held by [WithdrawContext]. *)
Record FoxyWithdrawState : Type := {
  userAddress : option string;
  loading : bool;
  withdraw : WithdrawSlot;
  approve : option string
}.

(** Modelled from the spec: the reducer behind [WithdrawContext] is not among
    the sources.  Sections 3 and 6: the wizard state carries [loading] and
    whichever withdraw or approve payload was last set; [setPayload] attaches
    the given fields to the state and [setLoading] sets the flag. *)
Definition reducer (s : FoxyWithdrawState) (a : FoxyWithdrawAction) : FoxyWithdrawState :=
  match a with
  | SET_WITHDRAW (FormValues v) =>
      {| userAddress := userAddress s; loading := loading s;
         withdraw := {| values := Some v; withdrawGas := withdrawGas (withdraw s) |};
         approve := approve s |}
  | SET_WITHDRAW (EstimatedGasCrypto g) =>
      {| userAddress := userAddress s; loading := loading s;
         withdraw := {| values := values (withdraw s); withdrawGas := Some g |};
         approve := approve s |}
  | SET_APPROVE g =>
      {| userAddress := userAddress s; loading := loading s;
         withdraw := withdraw s; approve := Some g |}
  | SET_LOADING b =>
      {| userAddress := userAddress s; loading := b;
         withdraw := withdraw s; approve := approve s |}
  end.

(** ** Effects *)

Inductive Effect : Type :=
| Dispatch (action : FoxyWithdrawAction)
| OnNext (step : DefiStep)
| Toast (description title : string)
| LogError (fn : string) (error : Thrown)
| Call (request : ApiRequest)
| SetValue (field : Field) (value : BigNumber.t).

Inductive Completion (A : Type) : Type :=
| Returned (a : A)
| Threw (e : Thrown).
Arguments Returned {A} a.
Arguments Threw {A} e.

(** A run: the effects in the order they happened, and how the run ended. *)
Definition M (A : Type) : Type := (list Effect * Completion A)%type.

Definition ret {A} (a : A) : M A := ([], Returned a).

Definition bind {A B} (m : M A) (k : A -> M B) : M B :=
  match m with
  | (tr, Returned a) => let (tr', c) := k a in (tr ++ tr', c)
  | (tr, Threw e) => (tr, Threw e)
  end.

Definition emit (e : Effect) : M unit := ([e], Returned tt).

(** [try { body } catch (error) { handler }]. *)
Definition tryCatch {A} (body : M A) (handler : Thrown -> M A) : M A :=
  match body with
  | (tr, Threw e) => let (tr', c) := handler e in (tr ++ tr', c)
  | done => done
  end.

Notation "x <- m ;; k" := (bind m (fun x => k))
  (at level 61, m at next level, right associativity).
Notation "' pat <- m ;; k" := (bind m (fun x => match x with pat => k end))
  (at level 61, pat pattern, m at next level, right associativity).
Notation "m ;; k" := (bind m (fun _ => k))
  (at level 61, right associativity).

Definition trace {A} (m : M A) : list Effect := fst m.
Definition completion {A} (m : M A) : Completion A := snd m.

(** [await api.call(input)]. *)
Definition await (api : FoxyApi) (r : ApiRequest) : M BigNumber.t :=
  ([Call r], match settle api r with
             | Resolved v => Returned v
             | Rejected e => Threw e
             end).

(** [await Promise.all([api.call1(input), api.getGasPrice()])]: both calls are
    issued; the result is the pair when both resolve and the first rejection
    otherwise. *)
Definition awaitBoth (api : FoxyApi) (r : ApiRequest) : M (BigNumber.t * BigNumber.t) :=
  ([Call r; Call GetGasPrice],
   match settle api r, settle api GetGasPrice with
   | Resolved a, Resolved b => Returned (a, b)
   | Rejected e, Resolved _ => Threw e
   | Resolved _, Rejected e => Threw e
   | Rejected e1, Rejected e2 => Threw (if gasPriceRejectsFirst api then e2 else e1)
   end).

(** The wizard state once the dispatched actions of a trace are reduced. *)
Definition dispatched (tr : list Effect) : list FoxyWithdrawAction :=
  flat_map (fun e => match e with Dispatch a => [a] | _ => [] end) tr.

Definition stateAfter (s : FoxyWithdrawState) (tr : list Effect) : FoxyWithdrawState :=
  fold_left reducer (dispatched tr) s.

(** The steps a trace advanced the wizard to. *)
Definition transitions (tr : list Effect) : list DefiStep :=
  flat_map (fun e => match e with OnNext s => [s] | _ => [] end) tr.

(** The API calls of a trace. *)
Definition calls (tr : list Effect) : list ApiRequest :=
  flat_map (fun e => match e with Call r => [r] | _ => [] end) tr.

(** The notifications of a trace, each as (description, title). *)
Definition toasts (tr : list Effect) : list (string * string) :=
  flat_map (fun e => match e with Toast d t => [(d, t)] | _ => [] end) tr.

(** ** The component *)

(** What the component body reads before it defines its handlers.  The
    selectors of the store are not among the sources: the price and the raw
    balance are held as the numbers [bn] makes of them (NaN for a missing
    one), and the precision as the natural number section 6 says it is. *)
Record Props : Type := {
  api : option FoxyApi;            (* [useFoxy().foxy] *)
  state : FoxyWithdrawState;       (* [useContext(WithdrawContext).state] *)
  rewardId : option string;        (* [query.rewardId] *)
  contractAddress : string;        (* [query.contractAddress] *)
  precision : nat;                 (* [asset.precision] *)
  price : BigNumber.t;             (* [marketData.price] *)
  balance : BigNumber.t            (* [selectPortfolioCryptoBalanceByAssetId] *)
}.

(** What a validator hands back to the form: [true], or a string ([''] or
    the key of a message). *)
Inductive Validation : Type :=
| Valid
| Message (text : string).

Section Withdraw.

(** Modelled from the spec: [bn] of [lib/bignumber/bignumber] is not among
    the sources.  On the text of a form field it is the decimal number the
    text spells, and NaN when the text spells none; how each text reads is
    left open here.  Chain and store values are taken as the numbers they
    already are, so [bn] of one of them is that number. *)
Variable bn : string -> BigNumber.t.

(** Modelled from the spec: [bnOrZero] of [lib/bignumber/bignumber] is not
    among the sources.  It is the number when the number is finite, and
    zero otherwise. *)
Definition bnOrZero (n : BigNumber.t) : BigNumber.t :=
  if BigNumber.isFinite n then n else BigNumber.zero.

Variable props : Props.

(** [`1e+${asset.precision}`] *)
Definition unit_ : BigNumber.t := BigNumber.Fin (BigNumber.pow10 (precision props)).

Definition translate (key : string) : string := key.

Definition dispatch (a : FoxyWithdrawAction) : M unit := emit (Dispatch a).
Definition onNext (s : DefiStep) : M unit := emit (OnNext s).
Definition toast (description title : string) : M unit := emit (Toast description title).
Definition logError (fn : string) (error : Thrown) : M unit := emit (LogError fn error).

(** [error instanceof Error && error.message.includes('Not enough funds in reserve')] *)
Definition fundsError (error : Thrown) : bool :=
  match error with
  | ErrorObject message => includes message "Not enough funds in reserve"
  | NonError _ => false
  end.

(** The [amountDesired] that [getWithdrawGasEstimate] sends. *)
Definition amountDesired (withdraw_ : FoxyWithdrawValues) : BigNumber.t :=
  BigNumber.decimalPlaces
    (bnOrZero (BigNumber.times (bn (cryptoAmount withdraw_)) unit_))
    0 BigNumber.ROUND_HALF_UP.

Definition getWithdrawGasEstimate (withdraw_ : FoxyWithdrawValues) : M (option string) :=
  match truthy (userAddress (state props)), truthy (rewardId props), api props with
  | Some user, Some reward, Some api =>
      tryCatch
        ('(gasLimit, gasPrice) <-
           awaitBoth api
             (EstimateWithdrawGas reward (contractAddress props)
                (amountDesired withdraw_) user (withdrawType withdraw_)) ;;
         ret (Some (BigNumber.toFixed0 (bnOrZero (BigNumber.times gasPrice gasLimit)))))
        (fun error =>
           logError "getWithdrawGasEstimate" error ;;
           toast (if fundsError error
                  then translate "defi.notEnoughFundsInReserve"
                  else translate "common.somethingWentWrong")
                 (translate "common.somethingWentWrong") ;;
           ret None)
  | _, _, _ => ret None
  end.

Definition getApproveGasEstimate : M (option string) :=
  match truthy (userAddress (state props)), truthy (rewardId props), api props with
  | Some user, Some reward, Some api =>
      tryCatch
        ('(gasLimit, gasPrice) <-
           awaitBoth api (EstimateApproveGas reward (contractAddress props) user) ;;
         ret (Some (BigNumber.toFixed0 (bnOrZero (BigNumber.times gasPrice gasLimit)))))
        (fun error =>
           logError "getApproveEstimate" error ;;
           toast (translate "common.somethingWentWrongBody")
                 (translate "common.somethingWentWrong") ;;
           ret None)
  | _, _, _ => ret None
  end.

Definition handleContinue (formValues : FoxyWithdrawValues) : M unit :=
  match truthy (userAddress (state props)), api props with
  | Some user, Some api =>
      (* set withdraw state for future use *)
      dispatch (SET_WITHDRAW (FormValues formValues)) ;;
      dispatch (SET_LOADING true) ;;
      tryCatch
        ((* Check is approval is required for user address *)
         _allowance <- await api (Allowance (rewardId props) (contractAddress props) user) ;;
         let allowance := bnOrZero (BigNumber.div _allowance unit_) in
         (* Skip approval step if user allowance is greater than requested deposit amount *)
         if BigNumber.gte allowance (bn (cryptoAmount formValues)) then
           estimatedGasCrypto <- getWithdrawGasEstimate formValues ;;
           match truthy estimatedGasCrypto with
           | None => ret tt
           | Some estimatedGasCrypto =>
               dispatch (SET_WITHDRAW (EstimatedGasCrypto estimatedGasCrypto)) ;;
               onNext Confirm ;;
               dispatch (SET_LOADING false)
           end
         else
           estimatedGasCrypto <- getApproveGasEstimate ;;
           match truthy estimatedGasCrypto with
           | None => ret tt
           | Some estimatedGasCrypto =>
               dispatch (SET_APPROVE estimatedGasCrypto) ;;
               onNext Approve ;;
               dispatch (SET_LOADING false)
           end)
        (fun error =>
           logError "handleContinue" error ;;
           dispatch (SET_LOADING false) ;;
           toast (translate "common.somethingWentWrongBody")
                 (translate "common.somethingWentWrong"))
  | _, _ => ret tt
  end.

Definition cryptoAmountAvailable : BigNumber.t :=
  bnOrZero (BigNumber.div (balance props) unit_).

Definition fiatAmountAvailable : BigNumber.t :=
  bnOrZero (BigNumber.times cryptoAmountAvailable (bnOrZero (price props))).

(** The two [setValue] calls write [fiatAmount.toString()] and
    [cryptoAmount.toString()]; the effect records the number written. *)
Definition handlePercentClick (percent : Q) : M unit :=
  let cryptoAmount :=
    BigNumber.decimalPlaces
      (BigNumber.times (bnOrZero cryptoAmountAvailable) (BigNumber.Fin percent))
      (precision props) BigNumber.ROUND_DOWN in
  let fiatAmount := BigNumber.times (bnOrZero cryptoAmount) (price props) in
  emit (SetValue FiatAmount fiatAmount) ;;
  emit (SetValue CryptoAmount cryptoAmount).

Definition validateCryptoAmount (value : string) : Validation :=
  let crypto := bnOrZero (BigNumber.div (balance props) unit_) in
  let _value := bnOrZero (bn value) in
  let hasValidBalance :=
    BigNumber.gt crypto BigNumber.zero && BigNumber.gt _value BigNumber.zero
    && BigNumber.gte crypto (bn value) in
  if BigNumber.isEqualTo _value BigNumber.zero then Message ""
  else if hasValidBalance then Valid else Message "common.insufficientFunds".

Definition validateFiatAmount (value : string) : Validation :=
  let crypto := bnOrZero (BigNumber.div (balance props) unit_) in
  let fiat := BigNumber.times crypto (bnOrZero (price props)) in
  let _value := bnOrZero (bn value) in
  let hasValidBalance :=
    BigNumber.gt fiat BigNumber.zero && BigNumber.gt _value BigNumber.zero
    && BigNumber.gte fiat (bn value) in
  if BigNumber.isEqualTo _value BigNumber.zero then Message ""
  else if hasValidBalance then Valid else Message "common.insufficientFunds".

(** [percentOptions] *)
Definition percentOptions : list Q := [0.25; 0.5; 0.75; 1].

End Withdraw.

(** ** A reader of decimal numerals

    One instance of [bn]: an optional minus sign, digits, and an optional
    point followed by digits.  Any other text reads as NaN.  It serves to run
    the handlers on concrete form input. *)

Definition digit (c : ascii) : option Z :=
  let n := nat_of_ascii c in
  if ((48 <=? n) && (n <=? 57))%nat then Some (Z.of_nat (n - 48)) else None.

Fixpoint readFraction (s : string) (num : Z) (scale : nat) : option Q :=
  match s with
  | EmptyString => Some (inject_Z num / BigNumber.pow10 scale)
  | String c rest =>
      match digit c with
      | Some d => readFraction rest (10 * num + d)%Z (S scale)
      | None => None
      end
  end.

Fixpoint readInteger (s : string) (num : Z) (seen : bool) : option Q :=
  match s with
  | EmptyString => if seen then Some (inject_Z num) else None
  | String c rest =>
      if Ascii.eqb c "."
      then match rest, seen with
           | EmptyString, false => None
           | _, _ => readFraction rest num 0
           end
      else match digit c with
           | Some d => readInteger rest (10 * num + d)%Z true
           | None => None
           end
  end.

Definition readDecimal (s : string) : BigNumber.t :=
  match s with
  | String "-" rest =>
      match readInteger rest 0 false with
      | Some q => BigNumber.Fin (- q)
      | None => BigNumber.NaN
      end
  | _ =>
      match readInteger s 0 false with
      | Some q => BigNumber.Fin q
      | None => BigNumber.NaN
      end
  end.

(** ** Vocabulary of the statements *)

(** The fee both estimates compute from the two resolved values. *)
Definition fee (gasPrice gasLimit : BigNumber.t) : string :=
  BigNumber.toFixed0 (bnOrZero (BigNumber.times gasPrice gasLimit)).

(** The notification of a failed withdraw estimate. *)
Definition withdrawEstimateToast (error : Thrown) : Effect :=
  Toast (if fundsError error then "defi.notEnoughFundsInReserve"
         else "common.somethingWentWrong")
        "common.somethingWentWrong".

Definition approveEstimateToast : Effect :=
  Toast "common.somethingWentWrongBody" "common.somethingWentWrong".

(** The requests the handlers send for a user address and a reward id that
    passed their guards. *)
Definition withdrawRequest (bn : string -> BigNumber.t) (props : Props)
    (user reward : string) (w : FoxyWithdrawValues) : ApiRequest :=
  EstimateWithdrawGas reward (contractAddress props) (amountDesired bn props w) user
    (withdrawType w).

Definition approveRequest (props : Props) (user reward : string) : ApiRequest :=
  EstimateApproveGas reward (contractAddress props) user.

Definition allowanceRequest (props : Props) (user : string) : ApiRequest :=
  Allowance (rewardId props) (contractAddress props) user.

(** What every submission that passes the guard does first. *)
Definition entry (props : Props) (user : string) (formValues : FoxyWithdrawValues)
    : list Effect :=
  [Dispatch (SET_WITHDRAW (FormValues formValues)); Dispatch (SET_LOADING true);
   Call (allowanceRequest props user)].

(** The allowance [handleContinue] compares with the requested amount. *)
Definition normalized (props : Props) (raw : BigNumber.t) : BigNumber.t :=
  bnOrZero (BigNumber.div raw (unit_ props)).

(** One branch of the [if]: the estimate, then the three effects of a
    success or the bare [return]. *)
Definition branch (props : Props) (user : string) (formValues : FoxyWithdrawValues)
    (estimate : M (option string)) (attach : string -> FoxyWithdrawAction)
    (step : DefiStep) : M unit :=
  match completion estimate with
  | Returned (Some g) =>
      (entry props user formValues ++ trace estimate ++
         [Dispatch (attach g); OnNext step; Dispatch (SET_LOADING false)],
       Returned tt)
  | _ => (entry props user formValues ++ trace estimate, Returned tt)
  end.

(** The estimate [handleContinue] runs once the allowance [raw] is known. *)
Definition chosenEstimate (bn : string -> BigNumber.t) (props : Props)
    (formValues : FoxyWithdrawValues) (raw : BigNumber.t) : M (option string) :=
  if BigNumber.gte (normalized props raw) (bn (cryptoAmount formValues))
  then getWithdrawGasEstimate bn props formValues
  else getApproveGasEstimate props.

(** The flow fails after submission: the allowance query rejects, or it
    resolves and the estimate that follows returns no fee. *)
Definition flowFails (bn : string -> BigNumber.t) (props : Props)
    (formValues : FoxyWithdrawValues) (user : string) (a : FoxyApi) : Prop :=
  match settle a (allowanceRequest props user) with
  | Rejected _ => True
  | Resolved raw => completion (chosenEstimate bn props formValues raw) = Returned None
  end.

(** An estimate dispatches nothing, advances nothing, never throws, and a
    fee it returns is a non-empty string. *)
Inductive Quiet : M (option string) -> Prop :=
| quiet_none tr :
    dispatched tr = [] -> transitions tr = [] -> Quiet (tr, Returned None)
| quiet_fee tr g :
    dispatched tr = [] -> transitions tr = [] -> g <> "" -> Quiet (tr, Returned (Some g)).

(** ** Scenarios *)

Definition idle : FoxyWithdrawState :=
  {| userAddress := Some "0xuser"; loading := false;
     withdraw := {| values := None; withdrawGas := None |}; approve := None |}.

(** A chain whose allowance is [allowance] raw units and whose gas limit and
    gas price calls settle as given. *)
Definition chain (allowance : Z) (gasLimit gasPrice : Settled) : FoxyApi :=
  {| settle := fun r =>
       match r with
       | Allowance _ _ _ => Resolved (BigNumber.ofZ allowance)
       | EstimateWithdrawGas _ _ _ _ _ => gasLimit
       | EstimateApproveGas _ _ _ => gasLimit
       | GetGasPrice => gasPrice
       end;
     gasPriceRejectsFirst := false |}.

(** Section 8: balance 100, precision 18. *)
Definition scenario (a : option FoxyApi) : Props :=
  {| api := a; state := idle; rewardId := Some "0xfoxy"; contractAddress := "0xstaking";
     precision := 18; price := BigNumber.Fin 2;
     balance := BigNumber.ofZ (100 * 10 ^ 18) |}.

Definition request50 : FoxyWithdrawValues :=
  {| cryptoAmount := "50"; fiatAmount := "100"; withdrawType := DELAYED |}.

Definition gas (z : Z) : Settled := Resolved (BigNumber.ofZ z).

(** A chain whose reserve is empty while its gas price call times out, and
    times out before the withdraw estimate rejects. *)
Definition racingChain : FoxyApi :=
  {| settle := fun r =>
       match r with
       | Allowance _ _ _ => Resolved (BigNumber.ofZ (60 * 10 ^ 18))
       | EstimateWithdrawGas _ _ _ _ _ =>
           Rejected (ErrorObject "Not enough funds in reserve")
       | EstimateApproveGas _ _ _ => Resolved (BigNumber.ofZ 45000)
       | GetGasPrice => Rejected (ErrorObject "timeout")
       end;
     gasPriceRejectsFirst := true |}.

(** * Properties *)

(** ** Numbers *)

Lemma pow10_pos (n : nat) : 0 < BigNumber.pow10 n.
Proof.
  unfold BigNumber.pow10.
  change 0 with (inject_Z 0). rewrite <- Zlt_Qlt.
  apply Z.pow_pos_nonneg; lia.
Qed.

Lemma pow10_not_zero (n : nat) : BigNumber.Qis_zero (BigNumber.pow10 n) = false.
Proof.
  unfold BigNumber.Qis_zero, BigNumber.pow10; simpl.
  apply Z.eqb_neq.
  assert (0 < 10 ^ Z.of_nat n)%Z by (apply Z.pow_pos_nonneg; lia).
  lia.
Qed.

Lemma bnOrZero_Fin (q : Q) : bnOrZero (BigNumber.Fin q) = BigNumber.Fin q.
Proof. reflexivity. Qed.

Lemma bnOrZero_finite (n : BigNumber.t) : exists q, bnOrZero n = BigNumber.Fin q.
Proof. destruct n; unfold bnOrZero, BigNumber.zero; simpl; eauto. Qed.

Lemma gt_Fin (a b : Q) : BigNumber.gt (BigNumber.Fin a) (BigNumber.Fin b) = true <-> b < a.
Proof.
  unfold BigNumber.gt; simpl.
  destruct (Qcompare_spec a b) as [E|E|E]; split; intros H;
    try reflexivity; try discriminate; try assumption.
  - rewrite E in H. exfalso; eapply Qlt_irrefl; eassumption.
  - exfalso; eapply Qlt_irrefl; eapply Qlt_trans; eassumption.
Qed.

Lemma gte_Fin (a b : Q) : BigNumber.gte (BigNumber.Fin a) (BigNumber.Fin b) = true <-> b <= a.
Proof.
  unfold BigNumber.gte; simpl.
  destruct (Qcompare_spec a b) as [E|E|E]; split; intros H;
    try reflexivity; try discriminate.
  - rewrite E. apply Qle_refl.
  - exfalso; eapply Qlt_irrefl; eapply Qlt_le_trans; eassumption.
  - apply Qlt_le_weak; assumption.
Qed.

Lemma gte_Fin_false (a b : Q) : BigNumber.gte (BigNumber.Fin a) (BigNumber.Fin b) = false <-> a < b.
Proof.
  rewrite <- Bool.not_true_iff_false, gte_Fin. split.
  - apply Qnot_le_lt.
  - apply Qlt_not_le.
Qed.

Lemma isEqualTo_Fin (a b : Q) :
  BigNumber.isEqualTo (BigNumber.Fin a) (BigNumber.Fin b) = true <-> a == b.
Proof.
  unfold BigNumber.isEqualTo; simpl.
  destruct (Qcompare_spec a b) as [E|E|E]; split; intros H;
    try reflexivity; try discriminate; try assumption.
  - rewrite H in E. exfalso; eapply Qlt_irrefl; eassumption.
  - rewrite H in E. exfalso; eapply Qlt_irrefl; eassumption.
Qed.

Lemma div_unit (q : Q) (n : nat) :
  BigNumber.div (BigNumber.Fin q) (BigNumber.Fin (BigNumber.pow10 n))
  = BigNumber.Fin (q / BigNumber.pow10 n).
Proof. unfold BigNumber.div. rewrite pow10_not_zero. reflexivity. Qed.

Lemma intString_not_empty (z : Z) : BigNumber.intString z <> "".
Proof.
  unfold BigNumber.intString, NilZero.string_of_int, NilZero.string_of_uint.
  destruct (Z.to_int z) as [d|d]; destruct d; simpl; discriminate.
Qed.

Lemma toFixed0_not_empty (x : BigNumber.t) : BigNumber.toFixed0 x <> "".
Proof.
  destruct x as [q| |[|]]; simpl; try discriminate. apply intString_not_empty.
Qed.

Lemma truthy_not_empty (s : string) : s <> "" -> truthy (Some s) = Some s.
Proof.
  intros H. unfold truthy. destruct (String.eqb_spec s ""); [contradiction | reflexivity].
Qed.

(** ** Runs of the two estimates *)

Section Runs.

Variable bn : string -> BigNumber.t.
Variable props : Props.
Variables (user reward : string) (a : FoxyApi).
Hypothesis Huser : truthy (userAddress (state props)) = Some user.
Hypothesis Hreward : truthy (rewardId props) = Some reward.
Hypothesis Hapi : api props = Some a.

Lemma getWithdrawGasEstimate_run (w : FoxyWithdrawValues) :
  getWithdrawGasEstimate bn props w =
  match completion (awaitBoth a (withdrawRequest bn props user reward w)) with
  | Returned (gasLimit, gasPrice) =>
      ([Call (withdrawRequest bn props user reward w); Call GetGasPrice],
       Returned (Some (fee gasPrice gasLimit)))
  | Threw e =>
      ([Call (withdrawRequest bn props user reward w); Call GetGasPrice;
        LogError "getWithdrawGasEstimate" e; withdrawEstimateToast e], Returned None)
  end.
Proof.
  unfold getWithdrawGasEstimate. rewrite Huser, Hreward, Hapi.
  fold (withdrawRequest bn props user reward w).
  unfold awaitBoth, completion, tryCatch, bind; simpl.
  destruct (settle a (withdrawRequest bn props user reward w)), (settle a GetGasPrice); reflexivity.
Qed.

Lemma getApproveGasEstimate_run :
  getApproveGasEstimate props =
  match completion (awaitBoth a (approveRequest props user reward)) with
  | Returned (gasLimit, gasPrice) =>
      ([Call (approveRequest props user reward); Call GetGasPrice],
       Returned (Some (fee gasPrice gasLimit)))
  | Threw e =>
      ([Call (approveRequest props user reward); Call GetGasPrice;
        LogError "getApproveEstimate" e; approveEstimateToast], Returned None)
  end.
Proof.
  unfold getApproveGasEstimate. rewrite Huser, Hreward, Hapi.
  fold (approveRequest props user reward).
  unfold awaitBoth, completion, tryCatch, bind; simpl.
  destruct (settle a (approveRequest props user reward)), (settle a GetGasPrice); reflexivity.
Qed.

End Runs.

Lemma awaitBoth_rejected (a : FoxyApi) (r : ApiRequest) :
  (exists e, settle a r = Rejected e) \/ (exists e, settle a GetGasPrice = Rejected e) ->
  exists e, completion (awaitBoth a r) = Threw e.
Proof.
  unfold awaitBoth, completion; simpl.
  intros [[e H]|[e H]]; rewrite H;
    [destruct (settle a GetGasPrice) | destruct (settle a r)]; eauto.
Qed.

(** An estimate is quiet on each of its paths: behind a failed guard, after
    two resolved calls, and after a caught rejection. *)
Ltac quiet_estimate props :=
  destruct (truthy (userAddress (state props))) as [?user|]; [|now constructor];
  destruct (truthy (rewardId props)) as [?reward|]; [|now constructor];
  destruct (api props) as [?a|]; [|now constructor];
  unfold awaitBoth, tryCatch, bind; simpl;
  match goal with
  | |- context [settle ?a ?r] =>
      destruct (settle a r), (settle a GetGasPrice); simpl;
      constructor; try reflexivity; apply toFixed0_not_empty
  end.

Lemma getWithdrawGasEstimate_quiet bn props w : Quiet (getWithdrawGasEstimate bn props w).
Proof. unfold getWithdrawGasEstimate. quiet_estimate props. Qed.

Lemma getApproveGasEstimate_quiet props : Quiet (getApproveGasEstimate props).
Proof. unfold getApproveGasEstimate. quiet_estimate props. Qed.

(** ** Runs of [handleContinue] *)

Section Continue.

Variable bn : string -> BigNumber.t.
Variable props : Props.
Variables (user : string) (a : FoxyApi).
Hypothesis Huser : truthy (userAddress (state props)) = Some user.
Hypothesis Hapi : api props = Some a.
Variable formValues : FoxyWithdrawValues.

Lemma handleContinue_run :
  handleContinue bn props formValues =
  match settle a (allowanceRequest props user) with
  | Rejected e =>
      (entry props user formValues ++ [LogError "handleContinue" e; Dispatch (SET_LOADING false);
                 Toast "common.somethingWentWrongBody" "common.somethingWentWrong"],
       Returned tt)
  | Resolved raw =>
      if BigNumber.gte (normalized props raw) (bn (cryptoAmount formValues))
      then branch props user formValues (getWithdrawGasEstimate bn props formValues)
             (fun g => SET_WITHDRAW (EstimatedGasCrypto g)) Confirm
      else branch props user formValues (getApproveGasEstimate props) SET_APPROVE Approve
  end.
Proof.
  unfold handleContinue. rewrite Huser, Hapi.
  fold (allowanceRequest props user).
  unfold await, dispatch, onNext, logError, toast, emit, translate, bind, tryCatch.
  destruct (settle a (allowanceRequest props user)) as [raw|e]; [|reflexivity].
  unfold normalized, branch, completion, trace; cbv beta iota zeta.
  destruct (BigNumber.gte (bnOrZero (BigNumber.div raw (unit_ props)))
              (bn (cryptoAmount formValues))).
  - destruct (getWithdrawGasEstimate_quiet bn props formValues)
      as [tr Hd Ht | tr g Hd Ht Hg]; cbv beta iota.
    + simpl. rewrite app_nil_r. reflexivity.
    + rewrite (truthy_not_empty g Hg). reflexivity.
  - destruct (getApproveGasEstimate_quiet props)
      as [tr Hd Ht | tr g Hd Ht Hg]; cbv beta iota.
    + simpl. rewrite app_nil_r. reflexivity.
    + rewrite (truthy_not_empty g Hg). reflexivity.
Qed.

End Continue.

Lemma dispatched_app (t1 t2 : list Effect) :
  dispatched (t1 ++ t2) = dispatched t1 ++ dispatched t2.
Proof. apply flat_map_app. Qed.

Lemma transitions_app (t1 t2 : list Effect) :
  transitions (t1 ++ t2) = transitions t1 ++ transitions t2.
Proof. apply flat_map_app. Qed.

Lemma Quiet_trace (m : M (option string)) :
  Quiet m -> dispatched (trace m) = [] /\ transitions (trace m) = [].
Proof. intros [tr Hd Ht | tr g Hd Ht Hg]; split; assumption. Qed.

Lemma transitions_branch props user fv est attach step :
  Quiet est ->
  transitions (trace (branch props user fv est attach step)) =
  match completion est with
  | Returned (Some _) => [step]
  | _ => []
  end.
Proof.
  intros Q. destruct (Quiet_trace est Q) as [_ Ht]. unfold branch.
  destruct (completion est) as [[g|]|e]; unfold trace at 1; cbn [fst];
    rewrite !transitions_app, Ht; reflexivity.
Qed.

Lemma dispatched_branch props user fv est attach step :
  Quiet est ->
  dispatched (trace (branch props user fv est attach step)) =
  SET_WITHDRAW (FormValues fv) :: SET_LOADING true ::
  match completion est with
  | Returned (Some g) => [attach g; SET_LOADING false]
  | _ => []
  end.
Proof.
  intros Q. destruct (Quiet_trace est Q) as [Hd _]. unfold branch.
  destruct (completion est) as [[g|]|e]; unfold trace at 1; cbn [fst];
    rewrite !dispatched_app, Hd; reflexivity.
Qed.

(** ** The guard of [handleContinue] *)

(** C8: when [state.userAddress] is absent (undefined or empty) or the API
    object is unavailable, [handleContinue] returns at once: it performs no
    effect at all, so it dispatches nothing (neither SET_WITHDRAW nor
    SET_LOADING), calls nothing on the chain API, advances to no step, and
    the wizard state is what it was. *)
Theorem handleContinue_guard_noop (bn : string -> BigNumber.t) (props : Props)
    (formValues : FoxyWithdrawValues) :
  truthy (userAddress (state props)) = None \/ api props = None ->
  handleContinue bn props formValues = ([], Returned tt)
  /\ dispatched (trace (handleContinue bn props formValues)) = []
  /\ calls (trace (handleContinue bn props formValues)) = []
  /\ transitions (trace (handleContinue bn props formValues)) = []
  /\ stateAfter (state props) (trace (handleContinue bn props formValues)) = state props.
Proof.
  intros H.
  assert (E : handleContinue bn props formValues = ([], Returned tt)).
  { unfold handleContinue.
    destruct H as [H|H]; rewrite H; [reflexivity|].
    destruct (truthy (userAddress (state props))); reflexivity. }
  rewrite E. repeat split.
Qed.

Lemma handleContinue_guard_noop_witness :
  handleContinue readDecimal (scenario None) request50 = ([], Returned tt)
  /\ stateAfter idle (trace (handleContinue readDecimal (scenario None) request50)) = idle.
Proof.
  destruct (handleContinue_guard_noop readDecimal (scenario None) request50)
    as (E & _ & _ & _ & S).
  - right. reflexivity.
  - split; [exact E | exact S].
Defined.

(** ** The allowance decides the step *)

(** C1: a submission that passes the guard, whose allowance query resolves
    with the raw amount [raw] and whose requested amount reads as [amount],
    advances to Confirm when [amount <= raw / 10^precision] and the withdraw
    estimate returns a fee, and to Approve when [raw / 10^precision < amount]
    and the approve estimate returns a fee; it advances to no other step. *)
Theorem handleContinue_routes (bn : string -> BigNumber.t) (props : Props)
    (formValues : FoxyWithdrawValues) (user : string) (a : FoxyApi) (raw amount : Q) :
  truthy (userAddress (state props)) = Some user ->
  api props = Some a ->
  settle a (allowanceRequest props user) = Resolved (BigNumber.Fin raw) ->
  bn (cryptoAmount formValues) = BigNumber.Fin amount ->
  (amount <= raw / BigNumber.pow10 (precision props) ->
   forall g, completion (getWithdrawGasEstimate bn props formValues) = Returned (Some g) ->
   transitions (trace (handleContinue bn props formValues)) = [Confirm])
  /\
  (raw / BigNumber.pow10 (precision props) < amount ->
   forall g, completion (getApproveGasEstimate props) = Returned (Some g) ->
   transitions (trace (handleContinue bn props formValues)) = [Approve]).
Proof.
  intros Huser Hapi Hraw Hamount.
  rewrite (handleContinue_run bn props user a Huser Hapi formValues), Hraw, Hamount.
  unfold normalized, unit_. rewrite div_unit, bnOrZero_Fin.
  split; intros Hcmp g Hg.
  - apply gte_Fin in Hcmp. rewrite Hcmp.
    rewrite transitions_branch by apply getWithdrawGasEstimate_quiet.
    rewrite Hg. reflexivity.
  - apply gte_Fin_false in Hcmp. rewrite Hcmp.
    rewrite transitions_branch by apply getApproveGasEstimate_quiet.
    rewrite Hg. reflexivity.
Qed.

(** Section 8, the two scenarios: precision 18, amount "50"; an allowance of
    60 x 10^18 raw units routes to Confirm, one of 10 x 10^18 to Approve. *)
Lemma handleContinue_routes_witness :
  transitions (trace (handleContinue readDecimal
                        (scenario (Some (chain (60 * 10 ^ 18) (gas 21000) (gas 30))))
                        request50)) = [Confirm]
  /\ transitions (trace (handleContinue readDecimal
                        (scenario (Some (chain (10 * 10 ^ 18) (gas 21000) (gas 30))))
                        request50)) = [Approve].
Proof.
  split.
  - apply (proj1 (handleContinue_routes readDecimal
                    (scenario (Some (chain (60 * 10 ^ 18) (gas 21000) (gas 30))))
                    request50 "0xuser" (chain (60 * 10 ^ 18) (gas 21000) (gas 30))
                    (inject_Z (60 * 10 ^ 18)) 50
                    eq_refl eq_refl eq_refl eq_refl)) with (g := "630000").
    + vm_compute. discriminate.
    + reflexivity.
  - apply (proj2 (handleContinue_routes readDecimal
                    (scenario (Some (chain (10 * 10 ^ 18) (gas 21000) (gas 30))))
                    request50 "0xuser" (chain (10 * 10 ^ 18) (gas 21000) (gas 30))
                    (inject_Z (10 * 10 ^ 18)) 50
                    eq_refl eq_refl eq_refl eq_refl)) with (g := "630000").
    + vm_compute. reflexivity.
    + reflexivity.
Defined.

(** ** The loading flag *)

(** The actions a submission that passes the guard dispatches, in order. *)
Lemma handleContinue_dispatched bn props formValues user a :
  truthy (userAddress (state props)) = Some user ->
  api props = Some a ->
  dispatched (trace (handleContinue bn props formValues)) =
  SET_WITHDRAW (FormValues formValues) :: SET_LOADING true ::
  match settle a (allowanceRequest props user) with
  | Rejected _ => [SET_LOADING false]
  | Resolved raw =>
      match completion (chosenEstimate bn props formValues raw) with
      | Returned (Some g) =>
          [if BigNumber.gte (normalized props raw) (bn (cryptoAmount formValues))
           then SET_WITHDRAW (EstimatedGasCrypto g) else SET_APPROVE g;
           SET_LOADING false]
      | _ => []
      end
  end.
Proof.
  intros Huser Hapi.
  rewrite (handleContinue_run bn props user a Huser Hapi formValues).
  destruct (settle a (allowanceRequest props user)) as [raw|e]; [|reflexivity].
  unfold chosenEstimate.
  destruct (BigNumber.gte (normalized props raw) (bn (cryptoAmount formValues))).
  - rewrite dispatched_branch by apply getWithdrawGasEstimate_quiet. reflexivity.
  - rewrite dispatched_branch by apply getApproveGasEstimate_quiet. reflexivity.
Qed.

(** The steps a submission that passes the guard advances to. *)
Lemma handleContinue_transitions bn props formValues user a :
  truthy (userAddress (state props)) = Some user ->
  api props = Some a ->
  transitions (trace (handleContinue bn props formValues)) =
  match settle a (allowanceRequest props user) with
  | Rejected _ => []
  | Resolved raw =>
      match completion (chosenEstimate bn props formValues raw) with
      | Returned (Some g) =>
          [if BigNumber.gte (normalized props raw) (bn (cryptoAmount formValues))
           then Confirm else Approve]
      | _ => []
      end
  end.
Proof.
  intros Huser Hapi.
  rewrite (handleContinue_run bn props user a Huser Hapi formValues).
  destruct (settle a (allowanceRequest props user)) as [raw|e]; [|reflexivity].
  unfold chosenEstimate.
  destruct (BigNumber.gte (normalized props raw) (bn (cryptoAmount formValues))).
  - rewrite transitions_branch by apply getWithdrawGasEstimate_quiet. reflexivity.
  - rewrite transitions_branch by apply getApproveGasEstimate_quiet. reflexivity.
Qed.

(** C2, as the code has it: after a submission that passes the guard the
    loading flag is false when the allowance query rejects and when the
    estimate returns a fee, and it is still true when the allowance query
    resolves and the estimate returns no fee: that path leaves through
    [if (!estimatedGasCrypto) return] without dispatching SET_LOADING false. *)
Theorem handleContinue_loading_after (bn : string -> BigNumber.t) (props : Props)
    (formValues : FoxyWithdrawValues) (user : string) (a : FoxyApi) :
  truthy (userAddress (state props)) = Some user ->
  api props = Some a ->
  loading (stateAfter (state props) (trace (handleContinue bn props formValues))) =
  match settle a (allowanceRequest props user) with
  | Rejected _ => false
  | Resolved raw =>
      match completion (chosenEstimate bn props formValues raw) with
      | Returned (Some _) => false
      | _ => true
      end
  end.
Proof.
  intros Huser Hapi. unfold stateAfter.
  rewrite (handleContinue_dispatched bn props formValues user a Huser Hapi).
  destruct (settle a (allowanceRequest props user)) as [raw|e]; [|reflexivity].
  destruct (completion (chosenEstimate bn props formValues raw)) as [[g|]|e];
    reflexivity.
Qed.

(** A withdraw estimate that rejects leaves the wizard loading. *)
Lemma handleContinue_loading_after_witness :
  loading (stateAfter idle
             (trace (handleContinue readDecimal
                       (scenario (Some (chain (60 * 10 ^ 18)
                                          (Rejected (ErrorObject "Not enough funds in reserve"))
                                          (gas 30))))
                       request50))) = true.
Proof.
  exact (handleContinue_loading_after readDecimal
           (scenario (Some (chain (60 * 10 ^ 18)
                              (Rejected (ErrorObject "Not enough funds in reserve"))
                              (gas 30))))
           request50 "0xuser" _ eq_refl eq_refl).
Defined.

(** ** Failed estimates *)

(** C7: in either estimate, when the gas limit call or the gas price call
    rejects, the estimate returns no fee; and a submission whose estimate has
    such a rejecting call dispatches only the two actions of its entry, so no
    fee payload reaches the wizard state, and it advances to no step. *)
Theorem failed_call_fails_estimate (bn : string -> BigNumber.t) (props : Props)
    (formValues : FoxyWithdrawValues) (user reward : string) (a : FoxyApi) :
  truthy (userAddress (state props)) = Some user ->
  truthy (rewardId props) = Some reward ->
  api props = Some a ->
  (((exists e, settle a (withdrawRequest bn props user reward formValues) = Rejected e)
    \/ (exists e, settle a GetGasPrice = Rejected e)) ->
   completion (getWithdrawGasEstimate bn props formValues) = Returned None)
  /\
  (((exists e, settle a (approveRequest props user reward) = Rejected e)
    \/ (exists e, settle a GetGasPrice = Rejected e)) ->
   completion (getApproveGasEstimate props) = Returned None)
  /\
  (forall raw,
     settle a (allowanceRequest props user) = Resolved raw ->
     ((exists e,
         settle a (if BigNumber.gte (normalized props raw) (bn (cryptoAmount formValues))
                   then withdrawRequest bn props user reward formValues
                   else approveRequest props user reward) = Rejected e)
      \/ (exists e, settle a GetGasPrice = Rejected e)) ->
     dispatched (trace (handleContinue bn props formValues)) =
       [SET_WITHDRAW (FormValues formValues); SET_LOADING true]
     /\ withdrawGas (withdraw (stateAfter (state props)
                                 (trace (handleContinue bn props formValues))))
        = withdrawGas (withdraw (state props))
     /\ approve (stateAfter (state props) (trace (handleContinue bn props formValues)))
        = approve (state props)
     /\ transitions (trace (handleContinue bn props formValues)) = []).
Proof.
  intros Huser Hreward Hapi.
  assert (W : ((exists e, settle a (withdrawRequest bn props user reward formValues) = Rejected e)
               \/ (exists e, settle a GetGasPrice = Rejected e)) ->
              completion (getWithdrawGasEstimate bn props formValues) = Returned None).
  { intros H. apply awaitBoth_rejected in H. destruct H as [e H].
    rewrite (getWithdrawGasEstimate_run bn props user reward a Huser Hreward Hapi), H.
    reflexivity. }
  assert (A : ((exists e, settle a (approveRequest props user reward) = Rejected e)
               \/ (exists e, settle a GetGasPrice = Rejected e)) ->
              completion (getApproveGasEstimate props) = Returned None).
  { intros H. apply awaitBoth_rejected in H. destruct H as [e H].
    rewrite (getApproveGasEstimate_run props user reward a Huser Hreward Hapi), H.
    reflexivity. }
  split; [exact W|]. split; [exact A|].
  intros raw Hraw H.
  assert (E : completion (chosenEstimate bn props formValues raw) = Returned None).
  { unfold chosenEstimate.
    destruct (BigNumber.gte (normalized props raw) (bn (cryptoAmount formValues)));
      [apply W | apply A]; exact H. }
  unfold stateAfter.
  rewrite (handleContinue_dispatched bn props formValues user a Huser Hapi).
  rewrite (handleContinue_transitions bn props formValues user a Huser Hapi).
  rewrite Hraw, E. repeat split.
Qed.

(** The gas price call rejects while the gas limit resolves: no fee, no step. *)
Lemma failed_call_fails_estimate_witness :
  completion (getWithdrawGasEstimate readDecimal
                (scenario (Some (chain (60 * 10 ^ 18) (gas 21000)
                                   (Rejected (NonError "timeout")))))
                request50) = Returned None
  /\ transitions (trace (handleContinue readDecimal
                (scenario (Some (chain (60 * 10 ^ 18) (gas 21000)
                                   (Rejected (NonError "timeout")))))
                request50)) = [].
Proof.
  destruct (failed_call_fails_estimate readDecimal
              (scenario (Some (chain (60 * 10 ^ 18) (gas 21000)
                                 (Rejected (NonError "timeout")))))
              request50 "0xuser" "0xfoxy" _ eq_refl eq_refl eq_refl) as (W & _ & H).
  split.
  - apply W. right. exists (NonError "timeout"). reflexivity.
  - destruct (H (BigNumber.ofZ (60 * 10 ^ 18)) eq_refl) as (_ & _ & _ & T).
    + right. exists (NonError "timeout"). reflexivity.
    + exact T.
Defined.

(** ** Failure after submission *)

(** C9: when the flow fails after submission, it advances to no step, the
    only actions it dispatches after the SET_WITHDRAW of its entry are
    SET_LOADING actions, and the wizard state afterwards still holds the
    submitted form values. *)
Theorem failure_keeps_submitted_values (bn : string -> BigNumber.t) (props : Props)
    (formValues : FoxyWithdrawValues) (user : string) (a : FoxyApi) :
  truthy (userAddress (state props)) = Some user ->
  api props = Some a ->
  flowFails bn props formValues user a ->
  transitions (trace (handleContinue bn props formValues)) = []
  /\ (exists rest,
        dispatched (trace (handleContinue bn props formValues)) =
          SET_WITHDRAW (FormValues formValues) :: rest
        /\ forall x, In x rest -> exists b, x = SET_LOADING b)
  /\ values (withdraw (stateAfter (state props)
                         (trace (handleContinue bn props formValues))))
     = Some formValues.
Proof.
  intros Huser Hapi F. unfold flowFails in F. unfold stateAfter.
  rewrite (handleContinue_dispatched bn props formValues user a Huser Hapi).
  rewrite (handleContinue_transitions bn props formValues user a Huser Hapi).
  destruct (settle a (allowanceRequest props user)) as [raw|e].
  - rewrite F. split; [reflexivity|]. split; [|reflexivity].
    eexists; split; [reflexivity|].
    intros x [<-|[]]. eauto.
  - split; [reflexivity|]. split; [|reflexivity].
    eexists; split; [reflexivity|].
    intros x [<-|[<-|[]]]; eauto.
Qed.

(** The allowance query rejects: the submitted values stay in the state. *)
Lemma failure_keeps_submitted_values_witness :
  values (withdraw
            (stateAfter idle
               (trace (handleContinue readDecimal
                  (scenario (Some {| settle := fun _ => Rejected (ErrorObject "network");
                                     gasPriceRejectsFirst := false |}))
                  request50))))
  = Some request50.
Proof.
  apply (failure_keeps_submitted_values readDecimal
           (scenario (Some {| settle := fun _ => Rejected (ErrorObject "network");
                              gasPriceRejectsFirst := false |}))
           request50 "0xuser" _ eq_refl eq_refl I).
Defined.

(** ** Rounding *)

Lemma half_up_Z (n : Z) (d : positive) :
  let k := (Z.sgn n * ((2 * Z.abs n + Zpos d) / (2 * Zpos d)))%Z in
  (- Zpos d <= 2 * Zpos d * k - 2 * n <= Zpos d)%Z.
Proof.
  intros k. subst k.
  pose proof (Z.div_mod (2 * Z.abs n + Zpos d) (2 * Zpos d) ltac:(lia)) as E.
  pose proof (Z.mod_pos_bound (2 * Z.abs n + Zpos d) (2 * Zpos d) ltac:(lia)) as B.
  set (m := ((2 * Z.abs n + Zpos d) / (2 * Zpos d))%Z) in *.
  destruct (Z.sgn_spec n) as [[Hn ->]|[[Hn ->]|[Hn ->]]]; nia.
Qed.

Lemma roundZ_half_up_near (q : Q) :
  Qabs (inject_Z (BigNumber.roundZ BigNumber.ROUND_HALF_UP q) - q) <= 1 # 2.
Proof.
  destruct q as [n d]. unfold BigNumber.roundZ. simpl Qnum. simpl Qden.
  pose proof (half_up_Z n d) as H. cbv zeta in H.
  set (k := (Z.sgn n * ((2 * Z.abs n + Zpos d) / (2 * Zpos d)))%Z) in *.
  apply Qabs_Qle_condition. split.
  - unfold Qle, Qminus, Qplus, Qopp, inject_Z; simpl. lia.
  - unfold Qle, Qminus, Qplus, Qopp, inject_Z; simpl. lia.
Qed.

Lemma roundZ_half_up_integer (q : Q) (z : Z) :
  q == inject_Z z -> BigNumber.roundZ BigNumber.ROUND_HALF_UP q = z.
Proof.
  intros E. pose proof (roundZ_half_up_near q) as H.
  set (k := BigNumber.roundZ BigNumber.ROUND_HALF_UP q) in *. clearbody k.
  rewrite E in H.
  apply Qabs_Qle_condition in H. destruct H as [H1 H2].
  unfold Qle, Qminus, Qplus, Qopp, inject_Z in H1, H2; simpl in H1, H2. lia.
Qed.

Lemma roundZ_down_bounds (q : Q) :
  (0 <= q -> 0 <= inject_Z (BigNumber.roundZ BigNumber.ROUND_DOWN q)
             /\ inject_Z (BigNumber.roundZ BigNumber.ROUND_DOWN q) <= q
             /\ q < inject_Z (BigNumber.roundZ BigNumber.ROUND_DOWN q) + 1)
  /\ (q <= 0 -> inject_Z (BigNumber.roundZ BigNumber.ROUND_DOWN q) <= 0
             /\ q <= inject_Z (BigNumber.roundZ BigNumber.ROUND_DOWN q)
             /\ inject_Z (BigNumber.roundZ BigNumber.ROUND_DOWN q) - 1 < q).
Proof.
  destruct q as [n d]. unfold BigNumber.roundZ. simpl Qnum. simpl Qden.
  pose proof (Z.quot_rem' n (Zpos d)) as E.
  set (t := Z.quot n (Zpos d)) in *.
  split; intros H; unfold Qle in H; simpl in H.
  - pose proof (Z.rem_bound_pos n (Zpos d) ltac:(lia) ltac:(lia)) as B.
    unfold Qle, Qlt, Qplus, inject_Z; simpl. nia.
  - pose proof (Z.rem_bound_abs n (Zpos d) ltac:(lia)) as B.
    pose proof (Z.rem_nonpos n (Zpos d) ltac:(lia) ltac:(lia)) as B'.
    unfold Qle, Qlt, Qminus, Qplus, Qopp, inject_Z; simpl. nia.
Qed.

Lemma roundZ_down_Qeq (p q : Q) :
  p == q -> BigNumber.roundZ BigNumber.ROUND_DOWN p = BigNumber.roundZ BigNumber.ROUND_DOWN q.
Proof.
  intros E.
  destruct (roundZ_down_bounds p) as [Pp Pn], (roundZ_down_bounds q) as [Qp Qn].
  set (s := BigNumber.roundZ BigNumber.ROUND_DOWN p) in *.
  set (t := BigNumber.roundZ BigNumber.ROUND_DOWN q) in *.
  clearbody s t.
  assert (inject_Z s < inject_Z t + 1 /\ inject_Z t < inject_Z s + 1) as [H1 H2].
  { destruct (Qlt_le_dec p 0) as [N|N].
    - assert (p <= 0) as N1 by (apply Qlt_le_weak; exact N).
      assert (q <= 0) as N2 by (rewrite <- E; exact N1).
      specialize (Pn N1). specialize (Qn N2). rewrite E in Pn. split; lra.
    - assert (0 <= q) as N2 by (rewrite <- E; exact N).
      specialize (Pp N). specialize (Qp N2). rewrite E in Pp. split; lra. }
  change 1 with (inject_Z 1) in H1, H2.
  rewrite <- inject_Z_plus in H1, H2.
  rewrite <- Zlt_Qlt in H1, H2. lia.
Qed.

Lemma roundQ_down_bounds (dp : nat) (x : Q) :
  (0 <= x -> 0 <= BigNumber.roundQ dp BigNumber.ROUND_DOWN x
             /\ BigNumber.roundQ dp BigNumber.ROUND_DOWN x <= x
             /\ x < BigNumber.roundQ dp BigNumber.ROUND_DOWN x + 1 / BigNumber.pow10 dp)
  /\ (x <= 0 -> BigNumber.roundQ dp BigNumber.ROUND_DOWN x <= 0
             /\ x <= BigNumber.roundQ dp BigNumber.ROUND_DOWN x
             /\ BigNumber.roundQ dp BigNumber.ROUND_DOWN x - 1 / BigNumber.pow10 dp < x).
Proof.
  unfold BigNumber.roundQ.
  pose proof (pow10_pos dp) as HP.
  set (P := BigNumber.pow10 dp) in *.
  destruct (roundZ_down_bounds (x * P)) as [Bp Bn].
  set (t := inject_Z (BigNumber.roundZ BigNumber.ROUND_DOWN (x * P))) in *.
  clearbody t P.
  assert (HP' : ~ P == 0) by (intros E; rewrite E in HP; discriminate).
  split; intros Hx.
  - assert (Hy : 0 <= x * P) by (apply Qmult_le_0_compat; [exact Hx | apply Qlt_le_weak; exact HP]).
    destruct (Bp Hy) as (B1 & B2 & B3).
    repeat split.
    + apply Qle_shift_div_l; [exact HP|]. lra.
    + apply Qle_shift_div_r; [exact HP|]. exact B2.
    + setoid_replace (t / P + 1 / P) with ((t + 1) / P) by (field; exact HP').
      apply Qlt_shift_div_l; [exact HP|]. exact B3.
  - assert (Hy : x * P <= 0).
    { setoid_replace 0 with (0 * P) by ring.
      apply Qmult_le_compat_r; [exact Hx | apply Qlt_le_weak; exact HP]. }
    destruct (Bn Hy) as (B1 & B2 & B3).
    repeat split.
    + apply Qle_shift_div_r; [exact HP|]. lra.
    + apply Qle_shift_div_l; [exact HP|]. exact B2.
    + setoid_replace (t / P - 1 / P) with ((t - 1) / P) by (field; exact HP').
      apply Qlt_shift_div_r; [exact HP|]. exact B3.
Qed.

Lemma roundQ_down_Qeq (dp : nat) (p q : Q) :
  p == q -> BigNumber.roundQ dp BigNumber.ROUND_DOWN p == BigNumber.roundQ dp BigNumber.ROUND_DOWN q.
Proof.
  intros E. unfold BigNumber.roundQ.
  rewrite (roundZ_down_Qeq (p * BigNumber.pow10 dp) (q * BigNumber.pow10 dp)).
  - reflexivity.
  - rewrite E. reflexivity.
Qed.

(** ** Notification of a failed withdraw estimate *)

(** C5, as the code has it: when [estimateWithdrawGas] rejects with an
    [Error] whose message contains "Not enough funds in reserve" and that
    rejection is the one the estimate catches (the gas price call resolves,
    or does not reject first), the notification carries the description
    defi.notEnoughFundsInReserve; whenever the rejection caught is such an
    [Error] it carries that description, and whenever it is anything else it
    carries common.somethingWentWrong. *)
Theorem withdraw_estimate_notification (bn : string -> BigNumber.t) (props : Props)
    (w : FoxyWithdrawValues) (user reward : string) (a : FoxyApi) :
  truthy (userAddress (state props)) = Some user ->
  truthy (rewardId props) = Some reward ->
  api props = Some a ->
  (forall message,
     settle a (withdrawRequest bn props user reward w) = Rejected (ErrorObject message) ->
     includes message "Not enough funds in reserve" = true ->
     (forall e', settle a GetGasPrice = Rejected e' -> gasPriceRejectsFirst a = false) ->
     toasts (trace (getWithdrawGasEstimate bn props w)) =
       [("defi.notEnoughFundsInReserve", "common.somethingWentWrong")])
  /\
  (forall message,
     completion (awaitBoth a (withdrawRequest bn props user reward w))
       = Threw (ErrorObject message) ->
     includes message "Not enough funds in reserve" = true ->
     toasts (trace (getWithdrawGasEstimate bn props w)) =
       [("defi.notEnoughFundsInReserve", "common.somethingWentWrong")])
  /\
  (forall e,
     completion (awaitBoth a (withdrawRequest bn props user reward w)) = Threw e ->
     fundsError e = false ->
     toasts (trace (getWithdrawGasEstimate bn props w)) =
       [("common.somethingWentWrong", "common.somethingWentWrong")])
  /\
  (forall e,
     settle a (withdrawRequest bn props user reward w) = Rejected e ->
     (forall e', settle a GetGasPrice = Rejected e' -> gasPriceRejectsFirst a = false) ->
     completion (awaitBoth a (withdrawRequest bn props user reward w)) = Threw e).
Proof.
  intros Huser Hreward Hapi.
  assert (Caught : forall e,
            settle a (withdrawRequest bn props user reward w) = Rejected e ->
            (forall e', settle a GetGasPrice = Rejected e' -> gasPriceRejectsFirst a = false) ->
            completion (awaitBoth a (withdrawRequest bn props user reward w)) = Threw e).
  { intros e Hrej Hrace.
    unfold awaitBoth, completion; simpl. rewrite Hrej.
    destruct (settle a GetGasPrice) as [v|e'] eqn:G; [reflexivity|].
    rewrite (Hrace e' eq_refl). reflexivity. }
  assert (Reserve : forall message,
            completion (awaitBoth a (withdrawRequest bn props user reward w))
              = Threw (ErrorObject message) ->
            includes message "Not enough funds in reserve" = true ->
            toasts (trace (getWithdrawGasEstimate bn props w)) =
              [("defi.notEnoughFundsInReserve", "common.somethingWentWrong")]).
  { intros message E Hmsg.
    rewrite (getWithdrawGasEstimate_run bn props user reward a Huser Hreward Hapi), E.
    unfold trace, toasts, withdrawEstimateToast, fundsError; simpl.
    rewrite Hmsg. reflexivity. }
  split; [|split; [|split]].
  - intros message Hrej Hmsg Hrace.
    apply (Reserve message); [|exact Hmsg].
    apply Caught; assumption.
  - exact Reserve.
  - intros e E He.
    rewrite (getWithdrawGasEstimate_run bn props user reward a Huser Hreward Hapi), E.
    unfold trace, toasts, withdrawEstimateToast; simpl. rewrite He. reflexivity.
  - exact Caught.
Qed.

(** The reserve is empty and the gas price resolves; then a timeout instead. *)
Lemma withdraw_estimate_notification_witness :
  toasts (trace (getWithdrawGasEstimate readDecimal
            (scenario (Some (chain (60 * 10 ^ 18)
                               (Rejected (ErrorObject "execution reverted: Not enough funds in reserve"))
                               (gas 30))))
            request50))
  = [("defi.notEnoughFundsInReserve", "common.somethingWentWrong")]
  /\ toasts (trace (getWithdrawGasEstimate readDecimal
            (scenario (Some (chain (60 * 10 ^ 18) (Rejected (ErrorObject "timeout")) (gas 30))))
            request50))
  = [("common.somethingWentWrong", "common.somethingWentWrong")].
Proof.
  split.
  - apply (proj1 (withdraw_estimate_notification readDecimal
                    (scenario (Some (chain (60 * 10 ^ 18)
                       (Rejected (ErrorObject "execution reverted: Not enough funds in reserve"))
                       (gas 30))))
                    request50 "0xuser" "0xfoxy" _ eq_refl eq_refl eq_refl))
      with (message := "execution reverted: Not enough funds in reserve").
    + reflexivity.
    + reflexivity.
    + intros e' H. reflexivity.
  - apply (proj1 (proj2 (proj2 (withdraw_estimate_notification readDecimal
                    (scenario (Some (chain (60 * 10 ^ 18) (Rejected (ErrorObject "timeout"))
                                       (gas 30))))
                    request50 "0xuser" "0xfoxy" _ eq_refl eq_refl eq_refl))))
      with (e := ErrorObject "timeout").
    + reflexivity.
    + reflexivity.
Defined.

(** C5 as stated fails: [estimateWithdrawGas] rejects with an [Error] whose
    message is "Not enough funds in reserve", the gas price call rejects
    first with a timeout, and the notification carries the general
    description, not the one of the reserve. *)
Lemma reserve_rejection_behind_gas_price :
  settle racingChain
    (withdrawRequest readDecimal (scenario (Some racingChain)) "0xuser" "0xfoxy" request50)
  = Rejected (ErrorObject "Not enough funds in reserve")
  /\ includes "Not enough funds in reserve" "Not enough funds in reserve" = true
  /\ toasts (trace (getWithdrawGasEstimate readDecimal (scenario (Some racingChain))
                      request50))
     = [("common.somethingWentWrong", "common.somethingWentWrong")]
  /\ toasts (trace (getWithdrawGasEstimate readDecimal (scenario (Some racingChain))
                      request50))
     <> [("defi.notEnoughFundsInReserve", "common.somethingWentWrong")].
Proof.
  split; [reflexivity|]. split; [reflexivity|].
  split; [reflexivity|]. vm_compute. discriminate.
Qed.

(** ** The fee *)

(** C6: when the gas limit call and the gas price call both resolve, with
    the numbers [gasLimit] and [gasPrice], each estimate returns the decimal
    numeral of an integer [k] that is [gasPrice * gasLimit] rounded to an
    integer; for integer gas limit and gas price, [k] is their product. *)
Theorem estimate_fee (bn : string -> BigNumber.t) (props : Props)
    (w : FoxyWithdrawValues) (user reward : string) (a : FoxyApi) (gasLimit gasPrice : Q) :
  truthy (userAddress (state props)) = Some user ->
  truthy (rewardId props) = Some reward ->
  api props = Some a ->
  settle a GetGasPrice = Resolved (BigNumber.Fin gasPrice) ->
  exists k : Z,
    Qabs (inject_Z k - gasPrice * gasLimit) <= 1 # 2
    /\ (forall p l : Z, gasPrice == inject_Z p -> gasLimit == inject_Z l -> k = (p * l)%Z)
    /\ (settle a (withdrawRequest bn props user reward w) = Resolved (BigNumber.Fin gasLimit) ->
        completion (getWithdrawGasEstimate bn props w)
        = Returned (Some (BigNumber.intString k)))
    /\ (settle a (approveRequest props user reward) = Resolved (BigNumber.Fin gasLimit) ->
        completion (getApproveGasEstimate props)
        = Returned (Some (BigNumber.intString k))).
Proof.
  intros Huser Hreward Hapi Hprice.
  exists (BigNumber.roundZ BigNumber.ROUND_HALF_UP (gasPrice * gasLimit)).
  split; [apply roundZ_half_up_near|]. split.
  - intros p l Hp Hl. apply roundZ_half_up_integer.
    rewrite Hp, Hl, inject_Z_mult. reflexivity.
  - split; intros Hlimit.
    + rewrite (getWithdrawGasEstimate_run bn props user reward a Huser Hreward Hapi).
      unfold awaitBoth, completion; simpl. rewrite Hlimit, Hprice. reflexivity.
    + rewrite (getApproveGasEstimate_run props user reward a Huser Hreward Hapi).
      unfold awaitBoth, completion; simpl. rewrite Hlimit, Hprice. reflexivity.
Qed.

(** Gas limit 21000 at gas price 30: the fee is "630000" in both estimates. *)
Lemma estimate_fee_witness :
  completion (getWithdrawGasEstimate readDecimal
                (scenario (Some (chain (60 * 10 ^ 18) (gas 21000) (gas 30)))) request50)
  = Returned (Some "630000")
  /\ completion (getApproveGasEstimate
                (scenario (Some (chain (60 * 10 ^ 18) (gas 21000) (gas 30)))))
  = Returned (Some "630000").
Proof.
  destruct (estimate_fee readDecimal
              (scenario (Some (chain (60 * 10 ^ 18) (gas 21000) (gas 30)))) request50
              "0xuser" "0xfoxy" _ (inject_Z 21000) (inject_Z 30)
              eq_refl eq_refl eq_refl eq_refl) as (k & _ & K & W & A).
  rewrite (K 30%Z 21000%Z (Qeq_refl _) (Qeq_refl _)) in W, A.
  split; [apply W | apply A]; reflexivity.
Defined.

(** ** Validation of an entered amount *)

Lemma hasValidBalance_iff (ceiling V : Q) :
  BigNumber.gt (BigNumber.Fin ceiling) BigNumber.zero
  && BigNumber.gt (BigNumber.Fin V) BigNumber.zero
  && BigNumber.gte (BigNumber.Fin ceiling) (BigNumber.Fin V) = true
  <-> 0 < V /\ V <= ceiling.
Proof.
  unfold BigNumber.zero.
  rewrite !Bool.andb_true_iff, !gt_Fin, gte_Fin. split.
  - intros [[_ H2] H3]. split; assumption.
  - intros [H2 H3]. repeat split; try assumption.
    eapply Qlt_le_trans; eassumption.
Qed.

(** The common shape of the two validators: [ceiling] is the amount the
    entered value is held against. *)
Lemma validate_shape (bn : string -> BigNumber.t) (value : string) (ceiling : Q) :
  let result :=
    if BigNumber.isEqualTo (bnOrZero (bn value)) BigNumber.zero then Message ""
    else if BigNumber.gt (BigNumber.Fin ceiling) BigNumber.zero
            && BigNumber.gt (bnOrZero (bn value)) BigNumber.zero
            && BigNumber.gte (BigNumber.Fin ceiling) (bn value)
         then Valid else Message "common.insufficientFunds" in
  (result = Valid <-> exists V, bn value = BigNumber.Fin V /\ 0 < V /\ V <= ceiling)
  /\ (forall V, bn value = BigNumber.Fin V -> V == 0 -> result = Message "")
  /\ (BigNumber.isFinite (bn value) = false -> result = Message "")
  /\ (forall V, bn value = BigNumber.Fin V -> V < 0 ->
      result = Message "common.insufficientFunds").
Proof.
  intros result. subst result.
  destruct (bn value) as [V| |n] eqn:E.
  - rewrite bnOrZero_Fin.
    pose proof (hasValidBalance_iff ceiling V) as HV.
    pose proof (isEqualTo_Fin V 0) as HZ. fold BigNumber.zero in HZ.
    destruct (BigNumber.isEqualTo (BigNumber.Fin V) BigNumber.zero).
    + assert (Z : V == 0) by (apply HZ; reflexivity).
      split; [split|split; [|split]].
      * discriminate.
      * intros (V' & HV' & Hpos & _). injection HV' as <-. exfalso; lra.
      * reflexivity.
      * discriminate.
      * intros V' HV' Hneg. injection HV' as <-. exfalso; lra.
    + assert (NZ : ~ V == 0) by (intros H; apply HZ in H; discriminate).
      destruct (BigNumber.gt (BigNumber.Fin ceiling) BigNumber.zero
                && BigNumber.gt (BigNumber.Fin V) BigNumber.zero
                && BigNumber.gte (BigNumber.Fin ceiling) (BigNumber.Fin V)).
      * assert (B : 0 < V /\ V <= ceiling) by (apply HV; reflexivity).
        split; [split|split; [|split]].
        -- intros _. exists V. split; [reflexivity | exact B].
        -- reflexivity.
        -- intros V' HV' Z. injection HV' as <-. contradiction.
        -- discriminate.
        -- intros V' HV' Hneg. injection HV' as <-. exfalso; lra.
      * split; [split|split; [|split]].
        -- discriminate.
        -- intros (V' & HV' & B). injection HV' as <-. apply HV in B. discriminate.
        -- intros V' HV' Z. injection HV' as <-. contradiction.
        -- discriminate.
        -- reflexivity.
  - split; [split|split; [|split]]; try discriminate; try reflexivity.
    intros (V' & HV & _); discriminate.
  - split; [split|split; [|split]]; try discriminate; try reflexivity.
    intros (V' & HV & _); discriminate.
Qed.

Lemma validateCryptoAmount_shape (bn : string -> BigNumber.t) (props : Props)
    (value : string) (B : Q) :
  balance props = BigNumber.Fin B ->
  validateCryptoAmount bn props value =
  if BigNumber.isEqualTo (bnOrZero (bn value)) BigNumber.zero then Message ""
  else if BigNumber.gt (BigNumber.Fin (B / BigNumber.pow10 (precision props))) BigNumber.zero
          && BigNumber.gt (bnOrZero (bn value)) BigNumber.zero
          && BigNumber.gte (BigNumber.Fin (B / BigNumber.pow10 (precision props))) (bn value)
       then Valid else Message "common.insufficientFunds".
Proof.
  intros H. unfold validateCryptoAmount, unit_. rewrite H, div_unit, bnOrZero_Fin.
  reflexivity.
Qed.

(** The ceiling of the fiat validator is always a finite number. *)
Lemma validateFiatAmount_shape (bn : string -> BigNumber.t) (props : Props) (value : string) :
  exists ceiling : Q,
    validateFiatAmount bn props value =
    if BigNumber.isEqualTo (bnOrZero (bn value)) BigNumber.zero then Message ""
    else if BigNumber.gt (BigNumber.Fin ceiling) BigNumber.zero
            && BigNumber.gt (bnOrZero (bn value)) BigNumber.zero
            && BigNumber.gte (BigNumber.Fin ceiling) (bn value)
         then Valid else Message "common.insufficientFunds".
Proof.
  unfold validateFiatAmount.
  destruct (bnOrZero_finite (BigNumber.div (balance props) (unit_ props))) as [c ->].
  destruct (bnOrZero_finite (price props)) as [p ->].
  exists (c * p). reflexivity.
Qed.

Lemma validateCryptoAmount_shape_any (bn : string -> BigNumber.t) (props : Props)
    (value : string) :
  exists ceiling : Q,
    validateCryptoAmount bn props value =
    if BigNumber.isEqualTo (bnOrZero (bn value)) BigNumber.zero then Message ""
    else if BigNumber.gt (BigNumber.Fin ceiling) BigNumber.zero
            && BigNumber.gt (bnOrZero (bn value)) BigNumber.zero
            && BigNumber.gte (BigNumber.Fin ceiling) (bn value)
         then Valid else Message "common.insufficientFunds".
Proof.
  unfold validateCryptoAmount.
  destruct (bnOrZero_finite (BigNumber.div (balance props) (unit_ props))) as [c ->].
  exists c. reflexivity.
Qed.



(** C10, as the code has it: when the entered text does not read as a finite
    number, both validators return the empty string; when it reads as a
    negative number, the value is not coerced to zero and both validators
    return common.insufficientFunds. *)
Theorem validators_on_unreadable_and_negative (bn : string -> BigNumber.t) (props : Props)
    (value : string) :
  (BigNumber.isFinite (bn value) = false ->
   validateCryptoAmount bn props value = Message ""
   /\ validateFiatAmount bn props value = Message "")
  /\ (forall V, bn value = BigNumber.Fin V -> V < 0 ->
      validateCryptoAmount bn props value = Message "common.insufficientFunds"
      /\ validateFiatAmount bn props value = Message "common.insufficientFunds").
Proof.
  destruct (validateCryptoAmount_shape_any bn props value) as [c ->].
  destruct (validateFiatAmount_shape bn props value) as [f ->].
  destruct (validate_shape bn value c) as (_ & _ & C3 & C4).
  destruct (validate_shape bn value f) as (_ & _ & F3 & F4).
  split.
  - intros H. split; [apply C3 | apply F3]; exact H.
  - intros V HV Hneg. split; [eapply C4 | eapply F4]; eassumption.
Qed.

(** "abc" is no number: no error; "-5" is a number below zero: an error. *)
Lemma validators_on_unreadable_and_negative_witness :
  (validateCryptoAmount readDecimal (scenario None) "abc" = Message ""
   /\ validateFiatAmount readDecimal (scenario None) "abc" = Message "")
  /\ (validateCryptoAmount readDecimal (scenario None) "-5" = Message "common.insufficientFunds"
      /\ validateFiatAmount readDecimal (scenario None) "-5" = Message "common.insufficientFunds").
Proof.
  split.
  - apply (proj1 (validators_on_unreadable_and_negative readDecimal (scenario None) "abc")).
    reflexivity.
  - apply (proj2 (validators_on_unreadable_and_negative readDecimal (scenario None) "-5")
             (-5) eq_refl).
    reflexivity.
Defined.

(** C10 as stated fails: "-5" reads as the negative number -5, and neither
    validator returns the empty string for it. *)
Lemma negative_amount_is_reported :
  readDecimal "-5" = BigNumber.Fin (-5)
  /\ validateCryptoAmount readDecimal (scenario None) "-5" <> Message ""
  /\ validateFiatAmount readDecimal (scenario None) "-5" <> Message "".
Proof.
  split; [reflexivity|]. split; vm_compute; discriminate.
Qed.

(** ** A share of the balance *)

Lemma percentOptions_nonneg (percent : Q) : In percent percentOptions -> 0 <= percent.
Proof.
  unfold percentOptions.
  intros [<-|[<-|[<-|[<-|[]]]]]; unfold Qle; simpl; lia.
Qed.

(** C4: [handlePercentClick] writes the crypto amount [r] that is
    [A * percent] cut to [precision] decimal places towards zero, where [A]
    is the available crypto amount: [r] is a whole number of units
    [10^-precision], it lies between zero and [A * percent] and less than one
    unit from it, so it is never the nearest above nor rounded up; for each
    of the four percent options and [A >= 0] it is at most [A * percent].
    The fiat amount it writes is [r] times the price.  Half of 1.23456789 at
    precision 4 is written as 0.6172. *)
Theorem handlePercentClick_rounds_down (props : Props) (percent : Q) :
  exists A r : Q,
    cryptoAmountAvailable props = BigNumber.Fin A
    /\ trace (handlePercentClick props percent) =
       [SetValue FiatAmount (BigNumber.times (BigNumber.Fin r) (price props));
        SetValue CryptoAmount (BigNumber.Fin r)]
    /\ (exists k : Z, r == inject_Z k / BigNumber.pow10 (precision props))
    /\ (0 <= A * percent -> 0 <= r /\ r <= A * percent)
    /\ (A * percent <= 0 -> A * percent <= r /\ r <= 0)
    /\ Qabs (A * percent - r) < 1 / BigNumber.pow10 (precision props)
    /\ (In percent percentOptions -> 0 <= A -> r <= A * percent)
    /\ (precision props = 4%nat -> A == 1.23456789 -> percent == 0.5 -> r == 0.6172).
Proof.
  destruct (bnOrZero_finite (BigNumber.div (balance props) (unit_ props))) as [A HA].
  exists A, (BigNumber.roundQ (precision props) BigNumber.ROUND_DOWN (A * percent)).
  destruct (roundQ_down_bounds (precision props) (A * percent)) as [Bp Bn].
  pose proof (pow10_pos (precision props)) as HP.
  assert (HU : 0 < 1 / BigNumber.pow10 (precision props))
    by (apply Qlt_shift_div_l; [exact HP | lra]).
  split; [exact HA|]. split.
  { unfold handlePercentClick, cryptoAmountAvailable. rewrite HA. reflexivity. }
  split.
  { eexists. unfold BigNumber.roundQ. reflexivity. }
  split; [intros H; destruct (Bp H) as (? & ? & ?); split; assumption|].
  split; [intros H; destruct (Bn H) as (? & ? & ?); split; assumption|].
  split.
  { apply Qabs_Qlt_condition.
    destruct (Qlt_le_dec (A * percent) 0) as [N|N].
    - destruct (Bn (Qlt_le_weak _ _ N)) as (? & ? & ?). split; lra.
    - destruct (Bp N) as (? & ? & ?). split; lra. }
  split.
  { intros Hin HA0. apply Bp. apply Qmult_le_0_compat; [exact HA0|].
    apply percentOptions_nonneg; exact Hin. }
  intros Hprec HA1 Hpercent. rewrite Hprec.
  rewrite (roundQ_down_Qeq 4 (A * percent) (1.23456789 * 0.5))
    by (rewrite HA1, Hpercent; reflexivity).
  vm_compute. reflexivity.
Qed.

(** Section 8: half of 1.23456789 at precision 4. *)
Lemma handlePercentClick_rounds_down_witness :
  exists r : Q,
    trace (handlePercentClick
             {| api := None; state := idle; rewardId := None; contractAddress := "";
                precision := 4; price := BigNumber.Fin 2;
                balance := BigNumber.Fin 12345.6789 |} 0.5)
    = [SetValue FiatAmount (BigNumber.times (BigNumber.Fin r) (BigNumber.Fin 2));
       SetValue CryptoAmount (BigNumber.Fin r)]
    /\ r == 0.6172.
Proof.
  destruct (handlePercentClick_rounds_down
              {| api := None; state := idle; rewardId := None; contractAddress := "";
                 precision := 4; price := BigNumber.Fin 2;
                 balance := BigNumber.Fin 12345.6789 |} 0.5)
    as (A & r & HA & T & _ & _ & _ & _ & _ & S).
  exists r. split; [exact T|].
  apply S; [reflexivity | | reflexivity].
  vm_compute in HA. injection HA as <-. reflexivity.
Defined.

(** * Further properties of the handlers *)

(** ** What a submission does on the chain and on the screen *)

Lemma calls_app (t1 t2 : list Effect) : calls (t1 ++ t2) = calls t1 ++ calls t2.
Proof. apply flat_map_app. Qed.

Lemma toasts_app (t1 t2 : list Effect) : toasts (t1 ++ t2) = toasts t1 ++ toasts t2.
Proof. apply flat_map_app. Qed.

Lemma branch_trace props user fv est attach step :
  trace (branch props user fv est attach step) =
  entry props user fv ++ trace est ++
  match completion est with
  | Returned (Some g) => [Dispatch (attach g); OnNext step; Dispatch (SET_LOADING false)]
  | _ => []
  end.
Proof.
  unfold branch.
  destruct (completion est) as [[g|]|e]; unfold trace at 1; cbn [fst];
    rewrite ?app_nil_r; reflexivity.
Qed.

Lemma branch_completion props user fv est attach step :
  completion (branch props user fv est attach step) = Returned tt.
Proof. unfold branch. destruct (completion est) as [[g|]|e]; reflexivity. Qed.

(** Behind a failed guard an estimate does nothing at all. *)
Lemma estimates_without_reward bn props w :
  truthy (rewardId props) = None ->
  getWithdrawGasEstimate bn props w = ([], Returned None)
  /\ getApproveGasEstimate props = ([], Returned None).
Proof.
  intros H. unfold getWithdrawGasEstimate, getApproveGasEstimate. rewrite H.
  destruct (truthy (userAddress (state props))); split; reflexivity.
Qed.

(** The run of the estimate a submission chose, for a reward id that passed
    the guard: the two calls, then nothing more when both resolve and the log
    line and the notification when one rejects. *)
Lemma chosenEstimate_run bn props fv user reward a raw :
  truthy (userAddress (state props)) = Some user ->
  truthy (rewardId props) = Some reward ->
  api props = Some a ->
  let sufficient := BigNumber.gte (normalized props raw) (bn (cryptoAmount fv)) in
  let request := if sufficient then withdrawRequest bn props user reward fv
                 else approveRequest props user reward in
  chosenEstimate bn props fv raw =
  match completion (awaitBoth a request) with
  | Returned (gasLimit, gasPrice) =>
      ([Call request; Call GetGasPrice], Returned (Some (fee gasPrice gasLimit)))
  | Threw e =>
      ([Call request; Call GetGasPrice;
        LogError (if sufficient then "getWithdrawGasEstimate" else "getApproveEstimate") e;
        if sufficient then withdrawEstimateToast e else approveEstimateToast],
       Returned None)
  end.
Proof.
  intros Huser Hreward Hapi sufficient request. subst sufficient request.
  unfold chosenEstimate.
  destruct (BigNumber.gte (normalized props raw) (bn (cryptoAmount fv))).
  - apply (getWithdrawGasEstimate_run bn props user reward a Huser Hreward Hapi).
  - apply (getApproveGasEstimate_run props user reward a Huser Hreward Hapi).
Qed.

(** The whole trace of a submission that passes the guard. *)
Lemma handleContinue_trace bn props fv user a :
  truthy (userAddress (state props)) = Some user ->
  api props = Some a ->
  trace (handleContinue bn props fv) =
  entry props user fv ++
  match settle a (allowanceRequest props user) with
  | Rejected e =>
      [LogError "handleContinue" e; Dispatch (SET_LOADING false);
       Toast "common.somethingWentWrongBody" "common.somethingWentWrong"]
  | Resolved raw =>
      trace (chosenEstimate bn props fv raw) ++
      match completion (chosenEstimate bn props fv raw) with
      | Returned (Some g) =>
          [Dispatch (if BigNumber.gte (normalized props raw) (bn (cryptoAmount fv))
                     then SET_WITHDRAW (EstimatedGasCrypto g) else SET_APPROVE g);
           OnNext (if BigNumber.gte (normalized props raw) (bn (cryptoAmount fv))
                   then Confirm else Approve);
           Dispatch (SET_LOADING false)]
      | _ => []
      end
  end.
Proof.
  intros Huser Hapi.
  rewrite (handleContinue_run bn props user a Huser Hapi fv).
  destruct (settle a (allowanceRequest props user)) as [raw|e]; [|reflexivity].
  unfold chosenEstimate.
  destruct (BigNumber.gte (normalized props raw) (bn (cryptoAmount fv)));
    rewrite branch_trace;
    match goal with
    | |- context [completion ?m] => destruct (completion m) as [[g|]|e]
    end; reflexivity.
Qed.

(** X1: no handler ever throws: whatever the chain API does, [handleContinue]
    returns normally, and so do the two estimates. *)
Theorem handlers_never_throw (bn : string -> BigNumber.t) (props : Props)
    (formValues : FoxyWithdrawValues) :
  completion (handleContinue bn props formValues) = Returned tt
  /\ (exists r, completion (getWithdrawGasEstimate bn props formValues) = Returned r)
  /\ (exists r, completion (getApproveGasEstimate props) = Returned r).
Proof.
  split; [|split].
  - destruct (truthy (userAddress (state props))) as [user|] eqn:Huser.
    + destruct (api props) as [a|] eqn:Hapi.
      * rewrite (handleContinue_run bn props user a Huser Hapi formValues).
        destruct (settle a (allowanceRequest props user)) as [raw|e]; [|reflexivity].
        destruct (BigNumber.gte _ _); apply branch_completion.
      * unfold handleContinue. rewrite Huser, Hapi. reflexivity.
    + unfold handleContinue. rewrite Huser. reflexivity.
  - destruct (getWithdrawGasEstimate_quiet bn props formValues); eexists; reflexivity.
  - destruct (getApproveGasEstimate_quiet props); eexists; reflexivity.
Qed.

(** X2: a submission whose estimate returns the fee [g] leaves the wizard with
    loading false, the submitted values, the user address untouched and the
    fee in the slot of its branch only: the withdraw slot when the allowance
    suffices, the approve slot otherwise.  The fee is dispatched before the
    wizard is advanced, and loading is cleared after. *)
Theorem handleContinue_success_state (bn : string -> BigNumber.t) (props : Props)
    (formValues : FoxyWithdrawValues) (user : string) (a : FoxyApi)
    (raw : BigNumber.t) (g : string) :
  truthy (userAddress (state props)) = Some user ->
  api props = Some a ->
  settle a (allowanceRequest props user) = Resolved raw ->
  completion (chosenEstimate bn props formValues raw) = Returned (Some g) ->
  let after := stateAfter (state props) (trace (handleContinue bn props formValues)) in
  let sufficient := BigNumber.gte (normalized props raw) (bn (cryptoAmount formValues)) in
  loading after = false
  /\ values (withdraw after) = Some formValues
  /\ userAddress after = userAddress (state props)
  /\ withdrawGas (withdraw after)
     = (if sufficient then Some g else withdrawGas (withdraw (state props)))
  /\ approve after = (if sufficient then approve (state props) else Some g)
  /\ exists before,
       trace (handleContinue bn props formValues) =
         before ++ [Dispatch (if sufficient then SET_WITHDRAW (EstimatedGasCrypto g)
                              else SET_APPROVE g);
                    OnNext (if sufficient then Confirm else Approve);
                    Dispatch (SET_LOADING false)]
       /\ transitions before = [].
Proof.
  intros Huser Hapi Hraw Hg after sufficient. subst after. unfold stateAfter.
  rewrite (handleContinue_dispatched bn props formValues user a Huser Hapi).
  rewrite (handleContinue_trace bn props formValues user a Huser Hapi).
  rewrite Hraw, Hg. fold sufficient.
  repeat split; try (destruct sufficient; reflexivity).
  exists (entry props user formValues ++ trace (chosenEstimate bn props formValues raw)).
  split; [rewrite app_assoc; reflexivity|].
  rewrite transitions_app.
  unfold chosenEstimate.
  destruct (BigNumber.gte _ _);
    [destruct (Quiet_trace _ (getWithdrawGasEstimate_quiet bn props formValues)) as [_ ->]
    |destruct (Quiet_trace _ (getApproveGasEstimate_quiet props)) as [_ ->]];
    reflexivity.
Qed.

(** Allowance 60 x 10^18, amount "50": the fee "630000" sits in the withdraw
    slot, the approve slot is untouched and loading is false. *)
Lemma handleContinue_success_state_witness :
  let after :=
    stateAfter idle
      (trace (handleContinue readDecimal
                (scenario (Some (chain (60 * 10 ^ 18) (gas 21000) (gas 30)))) request50)) in
  loading after = false
  /\ values (withdraw after) = Some request50
  /\ withdrawGas (withdraw after) = Some "630000"
  /\ approve after = None.
Proof.
  destruct (handleContinue_success_state readDecimal
              (scenario (Some (chain (60 * 10 ^ 18) (gas 21000) (gas 30)))) request50
              "0xuser" (chain (60 * 10 ^ 18) (gas 21000) (gas 30))
              (BigNumber.ofZ (60 * 10 ^ 18)) "630000"
              eq_refl eq_refl eq_refl ltac:(vm_compute; reflexivity))
    as (L & V & _ & W & A & _).
  cbv zeta. split; [exact L|]. split; [exact V|]. split; [exact W | exact A].
Defined.

(** X3: a submission that passes the guard first queries the allowance; when
    that resolves and the reward id is present it issues exactly one gas
    limit call, the withdraw one if the allowance suffices and the approve one
    otherwise, and one gas price call; it issues no other call, none twice,
    and no estimate call at all after a rejected allowance query. *)
Theorem handleContinue_calls (bn : string -> BigNumber.t) (props : Props)
    (formValues : FoxyWithdrawValues) (user : string) (a : FoxyApi) :
  truthy (userAddress (state props)) = Some user ->
  api props = Some a ->
  calls (trace (handleContinue bn props formValues)) =
  allowanceRequest props user ::
  match settle a (allowanceRequest props user), truthy (rewardId props) with
  | Resolved raw, Some reward =>
      [if BigNumber.gte (normalized props raw) (bn (cryptoAmount formValues))
       then withdrawRequest bn props user reward formValues
       else approveRequest props user reward;
       GetGasPrice]
  | _, _ => []
  end.
Proof.
  intros Huser Hapi.
  rewrite (handleContinue_trace bn props formValues user a Huser Hapi), calls_app.
  destruct (settle a (allowanceRequest props user)) as [raw|e]; [|reflexivity].
  destruct (truthy (rewardId props)) as [reward|] eqn:Hreward.
  - rewrite (chosenEstimate_run bn props formValues user reward a raw Huser Hreward Hapi).
    cbv zeta.
    destruct (BigNumber.gte (normalized props raw) (bn (cryptoAmount formValues)));
      destruct (completion (awaitBoth a _)) as [[gasLimit gasPrice]|e]; reflexivity.
  - unfold chosenEstimate.
    destruct (estimates_without_reward bn props formValues Hreward) as [-> ->].
    destruct (BigNumber.gte _ _); reflexivity.
Qed.

(** With an allowance of 10 x 10^18 for the amount "50", the calls are the
    allowance query, the approve estimate and the gas price. *)
Lemma handleContinue_calls_witness :
  calls (trace (handleContinue readDecimal
                  (scenario (Some (chain (10 * 10 ^ 18) (gas 45000) (gas 30)))) request50))
  = [Allowance (Some "0xfoxy") "0xstaking" "0xuser";
     EstimateApproveGas "0xfoxy" "0xstaking" "0xuser";
     GetGasPrice].
Proof.
  exact (handleContinue_calls readDecimal
           (scenario (Some (chain (10 * 10 ^ 18) (gas 45000) (gas 30)))) request50
           "0xuser" _ eq_refl eq_refl).
Defined.

(** The notifications of a submission that passes the guard. *)
Lemma handleContinue_toasts bn props fv user a :
  truthy (userAddress (state props)) = Some user ->
  api props = Some a ->
  toasts (trace (handleContinue bn props fv)) =
  match settle a (allowanceRequest props user) with
  | Rejected _ => [("common.somethingWentWrongBody", "common.somethingWentWrong")]
  | Resolved raw => toasts (trace (chosenEstimate bn props fv raw))
  end.
Proof.
  intros Huser Hapi.
  rewrite (handleContinue_trace bn props fv user a Huser Hapi), toasts_app.
  destruct (settle a (allowanceRequest props user)) as [raw|e]; [|reflexivity].
  rewrite toasts_app.
  destruct (completion (chosenEstimate bn props fv raw)) as [[g|]|e];
    simpl; rewrite ?app_nil_r; reflexivity.
Qed.

Lemma chosenEstimate_toasts bn props fv raw :
  match completion (chosenEstimate bn props fv raw) with
  | Returned (Some _) => toasts (trace (chosenEstimate bn props fv raw)) = []
  | _ =>
      toasts (trace (chosenEstimate bn props fv raw)) = []
      \/ exists d, toasts (trace (chosenEstimate bn props fv raw))
                   = [(d, "common.somethingWentWrong")]
  end.
Proof.
  unfold chosenEstimate, getWithdrawGasEstimate, getApproveGasEstimate.
  destruct (BigNumber.gte _ _);
    (destruct (truthy (userAddress (state props))) as [user|]; [|left; reflexivity]);
    (destruct (truthy (rewardId props)) as [reward|]; [|left; reflexivity]);
    (destruct (api props) as [a|]; [|left; reflexivity]);
    unfold awaitBoth, tryCatch, bind; simpl;
    match goal with
    | |- context [settle ?a ?r] => destruct (settle a r), (settle a GetGasPrice)
    end; simpl; try reflexivity; right; eexists; reflexivity.
Qed.

(** X4: a submission shows at most one notification, always under the title
    common.somethingWentWrong, and none when it advances the wizard.  A
    rejected allowance query is notified with common.somethingWentWrongBody;
    a rejection caught by the approve estimate too, whatever its message, so
    only the withdraw branch can show defi.notEnoughFundsInReserve. *)
Theorem handleContinue_notifies_once (bn : string -> BigNumber.t) (props : Props)
    (formValues : FoxyWithdrawValues) (user : string) (a : FoxyApi) :
  truthy (userAddress (state props)) = Some user ->
  api props = Some a ->
  (List.length (toasts (trace (handleContinue bn props formValues))) <= 1)%nat
  /\ (forall d t, In (d, t) (toasts (trace (handleContinue bn props formValues))) ->
      t = "common.somethingWentWrong")
  /\ (transitions (trace (handleContinue bn props formValues)) <> [] ->
      toasts (trace (handleContinue bn props formValues)) = [])
  /\ (forall e, settle a (allowanceRequest props user) = Rejected e ->
      toasts (trace (handleContinue bn props formValues))
      = [("common.somethingWentWrongBody", "common.somethingWentWrong")])
  /\ (forall raw reward e,
      settle a (allowanceRequest props user) = Resolved raw ->
      truthy (rewardId props) = Some reward ->
      BigNumber.gte (normalized props raw) (bn (cryptoAmount formValues)) = false ->
      completion (awaitBoth a (approveRequest props user reward)) = Threw e ->
      toasts (trace (handleContinue bn props formValues))
      = [("common.somethingWentWrongBody", "common.somethingWentWrong")]).
Proof.
  intros Huser Hapi.
  rewrite (handleContinue_toasts bn props formValues user a Huser Hapi).
  rewrite (handleContinue_transitions bn props formValues user a Huser Hapi).
  destruct (settle a (allowanceRequest props user)) as [raw|e0].
  - pose proof (chosenEstimate_toasts bn props formValues raw) as T.
    split; [|split; [|split; [|split]]].
    + destruct (completion (chosenEstimate bn props formValues raw)) as [[g|]|e];
        [rewrite T; simpl; lia | destruct T as [->|[d ->]]; simpl; lia ..].
    + intros d t.
      destruct (completion (chosenEstimate bn props formValues raw)) as [[g|]|e];
        [rewrite T; simpl; intros H; contradiction
        | destruct T as [->|[d' ->]]; simpl; intros H;
          [contradiction | destruct H as [H|H]; [congruence | contradiction]] ..].
    + destruct (completion (chosenEstimate bn props formValues raw)) as [[g|]|e];
        [intros _; exact T | intros H; contradiction ..].
    + discriminate.
    + intros raw' reward e Hraw Hreward Hcmp He. injection Hraw as <-.
      rewrite (chosenEstimate_run bn props formValues user reward a raw Huser Hreward Hapi).
      cbv zeta. rewrite Hcmp, He. reflexivity.
  - split; [simpl; lia|]. split; [|split; [|split]].
    + intros d t [H|[]]. congruence.
    + intros H. contradiction.
    + reflexivity.
    + discriminate.
Qed.

(** The approve estimate rejects with the reserve message: the notification
    is still the general one. *)
Lemma handleContinue_notifies_once_witness :
  toasts (trace (handleContinue readDecimal
                   (scenario (Some (chain (10 * 10 ^ 18)
                                      (Rejected (ErrorObject "Not enough funds in reserve"))
                                      (gas 30))))
                   request50))
  = [("common.somethingWentWrongBody", "common.somethingWentWrong")].
Proof.
  destruct (handleContinue_notifies_once readDecimal
              (scenario (Some (chain (10 * 10 ^ 18)
                                 (Rejected (ErrorObject "Not enough funds in reserve"))
                                 (gas 30))))
              request50 "0xuser" _ eq_refl eq_refl) as (_ & _ & _ & _ & H).
  apply (H (BigNumber.ofZ (10 * 10 ^ 18)) "0xfoxy"
           (ErrorObject "Not enough funds in reserve")); vm_compute; reflexivity.
Defined.

(** X5: when the reward id is missing (undefined or empty) and the allowance
    query resolves, the submission does nothing after that query: no estimate
    call, no log line, no notification, no step; and the wizard is left
    loading. *)
Theorem handleContinue_without_reward (bn : string -> BigNumber.t) (props : Props)
    (formValues : FoxyWithdrawValues) (user : string) (a : FoxyApi) (raw : BigNumber.t) :
  truthy (userAddress (state props)) = Some user ->
  api props = Some a ->
  truthy (rewardId props) = None ->
  settle a (allowanceRequest props user) = Resolved raw ->
  trace (handleContinue bn props formValues) =
    [Dispatch (SET_WITHDRAW (FormValues formValues)); Dispatch (SET_LOADING true);
     Call (Allowance (rewardId props) (contractAddress props) user)]
  /\ loading (stateAfter (state props) (trace (handleContinue bn props formValues))) = true.
Proof.
  intros Huser Hapi Hreward Hraw.
  assert (E : trace (handleContinue bn props formValues) = entry props user formValues).
  { rewrite (handleContinue_trace bn props formValues user a Huser Hapi), Hraw.
    unfold chosenEstimate.
    destruct (estimates_without_reward bn props formValues Hreward) as [-> ->].
    destruct (BigNumber.gte _ _); reflexivity. }
  rewrite E. split; reflexivity.
Qed.

Lemma handleContinue_without_reward_witness :
  loading (stateAfter idle
             (trace (handleContinue readDecimal
                       {| api := Some (chain (60 * 10 ^ 18) (gas 21000) (gas 30));
                          state := idle; rewardId := None; contractAddress := "0xstaking";
                          precision := 18; price := BigNumber.Fin 2;
                          balance := BigNumber.ofZ (100 * 10 ^ 18) |}
                       request50))) = true.
Proof.
  apply (handleContinue_without_reward readDecimal
           {| api := Some (chain (60 * 10 ^ 18) (gas 21000) (gas 30));
              state := idle; rewardId := None; contractAddress := "0xstaking";
              precision := 18; price := BigNumber.Fin 2;
              balance := BigNumber.ofZ (100 * 10 ^ 18) |}
           request50 "0xuser" _ (BigNumber.ofZ (60 * 10 ^ 18))
           eq_refl eq_refl eq_refl eq_refl).
Defined.

(** X6: when both calls of the chosen estimate resolve but the product of
    their values is not a finite number (one of them is NaN or infinite),
    the estimate does not fail: its fee is "0", and the submission advances
    the wizard with that fee. *)
Theorem unreadable_gas_gives_zero_fee (bn : string -> BigNumber.t) (props : Props)
    (formValues : FoxyWithdrawValues) (user reward : string) (a : FoxyApi)
    (raw gasLimit gasPrice : BigNumber.t) :
  truthy (userAddress (state props)) = Some user ->
  truthy (rewardId props) = Some reward ->
  api props = Some a ->
  settle a (allowanceRequest props user) = Resolved raw ->
  settle a (if BigNumber.gte (normalized props raw) (bn (cryptoAmount formValues))
            then withdrawRequest bn props user reward formValues
            else approveRequest props user reward) = Resolved gasLimit ->
  settle a GetGasPrice = Resolved gasPrice ->
  BigNumber.isFinite (BigNumber.times gasPrice gasLimit) = false ->
  completion (chosenEstimate bn props formValues raw) = Returned (Some "0")
  /\ transitions (trace (handleContinue bn props formValues)) =
     [if BigNumber.gte (normalized props raw) (bn (cryptoAmount formValues))
      then Confirm else Approve].
Proof.
  intros Huser Hreward Hapi Hraw Hlimit Hprice Hnan.
  assert (E : completion (chosenEstimate bn props formValues raw) = Returned (Some "0")).
  { rewrite (chosenEstimate_run bn props formValues user reward a raw Huser Hreward Hapi).
    cbv zeta. unfold awaitBoth, completion at 2; simpl.
    rewrite Hlimit, Hprice. unfold completion; simpl.
    unfold fee, bnOrZero. rewrite Hnan. reflexivity. }
  split; [exact E|].
  rewrite (handleContinue_transitions bn props formValues user a Huser Hapi), Hraw, E.
  reflexivity.
Qed.

(** The gas limit comes back as NaN: the wizard goes to Confirm all the same. *)
Lemma unreadable_gas_gives_zero_fee_witness :
  transitions (trace (handleContinue readDecimal
                        (scenario (Some (chain (60 * 10 ^ 18)
                                           (Resolved BigNumber.NaN) (gas 30))))
                        request50)) = [Confirm].
Proof.
  apply (unreadable_gas_gives_zero_fee readDecimal
           (scenario (Some (chain (60 * 10 ^ 18) (Resolved BigNumber.NaN) (gas 30))))
           request50 "0xuser" "0xfoxy" _ (BigNumber.ofZ (60 * 10 ^ 18))
           BigNumber.NaN (BigNumber.ofZ 30)
           eq_refl eq_refl eq_refl eq_refl eq_refl eq_refl eq_refl).
Defined.

(** ** Amounts in base units *)

Lemma pow10_0 : BigNumber.pow10 0 = 1.
Proof. reflexivity. Qed.

Lemma amountDesired_Fin bn props w :
  exists x, bnOrZero (BigNumber.times (bn (cryptoAmount w)) (unit_ props)) = BigNumber.Fin x
    /\ amountDesired bn props w
       = BigNumber.Fin (inject_Z (BigNumber.roundZ BigNumber.ROUND_HALF_UP
                                    (x * BigNumber.pow10 0)) / BigNumber.pow10 0)
    /\ (BigNumber.isFinite (bn (cryptoAmount w)) = false -> x = 0)
    /\ (forall c, bn (cryptoAmount w) = BigNumber.Fin c ->
        x = c * BigNumber.pow10 (precision props)).
Proof.
  unfold amountDesired, unit_.
  destruct (bn (cryptoAmount w)) as [c| |n]; simpl.
  - eexists. split; [reflexivity|]. split; [reflexivity|].
    split; [discriminate|]. intros c' H. injection H as <-. reflexivity.
  - eexists. split; [reflexivity|]. split; [reflexivity|].
    split; [reflexivity|]. discriminate.
  - rewrite pow10_not_zero. simpl.
    eexists. split; [reflexivity|]. split; [reflexivity|].
    split; [reflexivity|]. discriminate.
Qed.

(** X7: the [amountDesired] sent with the withdraw estimate is always a whole
    number [k] of base units: zero when the entered amount is not a finite
    number, and otherwise the entered amount times [10^precision] rounded to
    the nearest integer; for an amount with at most [precision] decimals,
    [m / 10^precision], it is exactly [m]. *)
Theorem amountDesired_base_units (bn : string -> BigNumber.t) (props : Props)
    (w : FoxyWithdrawValues) :
  exists (k : Z) (q : Q),
    amountDesired bn props w = BigNumber.Fin q
    /\ q == inject_Z k
    /\ (BigNumber.isFinite (bn (cryptoAmount w)) = false -> k = 0%Z)
    /\ (forall c, bn (cryptoAmount w) = BigNumber.Fin c ->
        Qabs (inject_Z k - c * BigNumber.pow10 (precision props)) <= 1 # 2
        /\ forall m : Z, c == inject_Z m / BigNumber.pow10 (precision props) -> k = m).
Proof.
  destruct (amountDesired_Fin bn props w) as (x & _ & E & Hnan & Hfin).
  exists (BigNumber.roundZ BigNumber.ROUND_HALF_UP (x * BigNumber.pow10 0)).
  eexists. split; [exact E|]. split.
  { rewrite pow10_0. field. }
  split.
  - intros H. rewrite (Hnan H). reflexivity.
  - intros c Hc. rewrite (Hfin c Hc).
    pose proof (pow10_pos (precision props)) as HP.
    split.
    + pose proof (roundZ_half_up_near
                    (c * BigNumber.pow10 (precision props) * BigNumber.pow10 0)) as N.
      rewrite pow10_0 in *.
      set (k := BigNumber.roundZ BigNumber.ROUND_HALF_UP
                  (c * BigNumber.pow10 (precision props) * 1)) in *.
      clearbody k.
      setoid_replace (c * BigNumber.pow10 (precision props))
        with (c * BigNumber.pow10 (precision props) * 1) by ring.
      exact N.
    + intros m Hm. apply roundZ_half_up_integer.
      rewrite pow10_0, Hm. field.
      intros Z; rewrite Z in HP; discriminate.
Qed.

(** "50" at precision 18 is sent as 50 x 10^18 base units. *)
Lemma amountDesired_base_units_witness :
  exists q, amountDesired readDecimal (scenario None) request50 = BigNumber.Fin q
            /\ q == inject_Z (50 * 10 ^ 18).
Proof.
  destruct (amountDesired_base_units readDecimal (scenario None) request50)
    as (k & q & E & Hq & _ & H).
  exists q. split; [exact E|].
  destruct (H 50 eq_refl) as [_ Hm].
  rewrite Hq, (Hm (50 * 10 ^ 18)%Z). { reflexivity. }
  vm_compute. reflexivity.
Defined.

Lemma div_pow10_le (m R : Z) (n : nat) :
  inject_Z m / BigNumber.pow10 n <= inject_Z R / BigNumber.pow10 n <-> (m <= R)%Z.
Proof.
  pose proof (pow10_pos n) as HP.
  assert (NZ : ~ BigNumber.pow10 n == 0)
    by (intros Z; rewrite Z in HP; discriminate).
  rewrite Zle_Qle. split; intros H.
  - setoid_replace (inject_Z m)
      with (inject_Z m / BigNumber.pow10 n * BigNumber.pow10 n) by (field; exact NZ).
    setoid_replace (inject_Z R)
      with (inject_Z R / BigNumber.pow10 n * BigNumber.pow10 n) by (field; exact NZ).
    apply Qmult_le_compat_r; [exact H | apply Qlt_le_weak; exact HP].
  - apply Qmult_le_compat_r; [exact H|].
    apply Qlt_le_weak, Qinv_lt_0_compat; exact HP.
Qed.

(** X8: for a whole raw allowance [R] and an entered amount with at most
    [precision] decimals, [m / 10^precision], the allowance suffices exactly
    when [m <= R], and [m] is the [amountDesired] the withdraw estimate then
    sends: the step is decided on the same base units that are requested. *)
Theorem decision_in_base_units (bn : string -> BigNumber.t) (props : Props)
    (formValues : FoxyWithdrawValues) (R m : Z) (c : Q) :
  bn (cryptoAmount formValues) = BigNumber.Fin c ->
  c == inject_Z m / BigNumber.pow10 (precision props) ->
  (BigNumber.gte (normalized props (BigNumber.ofZ R)) (bn (cryptoAmount formValues)) = true
   <-> (m <= R)%Z)
  /\ (chosenEstimate bn props formValues (BigNumber.ofZ R) =
      if (m <=? R)%Z then getWithdrawGasEstimate bn props formValues
      else getApproveGasEstimate props)
  /\ exists q, amountDesired bn props formValues = BigNumber.Fin q /\ q == inject_Z m.
Proof.
  intros Hc Hm.
  assert (G : BigNumber.gte (normalized props (BigNumber.ofZ R))
                (bn (cryptoAmount formValues)) = true <-> (m <= R)%Z).
  { rewrite Hc. unfold normalized, BigNumber.ofZ, unit_.
    rewrite div_unit, bnOrZero_Fin, gte_Fin, Hm. apply div_pow10_le. }
  split; [exact G|]. split.
  - unfold chosenEstimate.
    destruct (BigNumber.gte _ _); destruct (Z.leb_spec m R); try reflexivity.
    + assert (m <= R)%Z by (apply G; reflexivity). lia.
    + assert (true = false) by (symmetry; apply G; assumption). discriminate.
  - destruct (amountDesired_Fin bn props formValues) as (x & _ & E & _ & Hfin).
    eexists. split; [exact E|].
    rewrite (Hfin c Hc), pow10_0.
    rewrite (roundZ_half_up_integer _ m).
    + field.
    + pose proof (pow10_pos (precision props)) as HP.
      rewrite Hm. field. intros Z; rewrite Z in HP; discriminate.
Qed.

(** Amount "50" at precision 18 against 60 x 10^18 and against 10 x 10^18. *)
Lemma decision_in_base_units_witness :
  BigNumber.gte (normalized (scenario None) (BigNumber.ofZ (60 * 10 ^ 18)))
    (readDecimal "50") = true
  /\ ~ BigNumber.gte (normalized (scenario None) (BigNumber.ofZ (10 * 10 ^ 18)))
         (readDecimal "50") = true.
Proof.
  assert (E : 50 == inject_Z (50 * 10 ^ 18) / BigNumber.pow10 (precision (scenario None)))
    by (vm_compute; reflexivity).
  split.
  - apply (proj1 (decision_in_base_units readDecimal (scenario None) request50
                    (60 * 10 ^ 18) (50 * 10 ^ 18) 50 eq_refl E)).
    vm_compute. discriminate.
  - intros H.
    apply (proj1 (decision_in_base_units readDecimal (scenario None) request50
                    (10 * 10 ^ 18) (50 * 10 ^ 18) 50 eq_refl E)) in H.
    vm_compute in H. apply H. reflexivity.
Defined.

(** X9: an amount that [validateCryptoAmount] accepts against a whole raw
    balance [B] is sent to the withdraw estimate as a whole number of base
    units between 0 and [B]: validation keeps the request within the raw
    balance, rounding included. *)
Theorem validated_amount_within_balance (bn : string -> BigNumber.t) (props : Props)
    (w : FoxyWithdrawValues) (B : Z) :
  balance props = BigNumber.ofZ B ->
  validateCryptoAmount bn props (cryptoAmount w) = Valid ->
  exists (k : Z) (q : Q),
    amountDesired bn props w = BigNumber.Fin q /\ q == inject_Z k /\ (0 <= k <= B)%Z.
Proof.
  intros HB HV.
  rewrite (validateCryptoAmount_shape bn props (cryptoAmount w) (inject_Z B) HB) in HV.
  apply (proj1 (validate_shape bn (cryptoAmount w)
                  (inject_Z B / BigNumber.pow10 (precision props)))) in HV.
  destruct HV as (V & HVal & Hpos & Hle).
  destruct (amountDesired_Fin bn props w) as (x & _ & E & _ & Hfin).
  rewrite (Hfin V HVal), pow10_0 in E.
  pose proof (pow10_pos (precision props)) as HP.
  pose proof (roundZ_half_up_near (V * BigNumber.pow10 (precision props) * 1)) as N.
  set (k := BigNumber.roundZ BigNumber.ROUND_HALF_UP
              (V * BigNumber.pow10 (precision props) * 1)) in *.
  clearbody k.
  exists k. eexists. split; [exact E|]. split; [field|].
  assert (X0 : 0 < V * BigNumber.pow10 (precision props)).
  { setoid_replace 0 with (0 * BigNumber.pow10 (precision props)) by ring.
    apply Qmult_lt_compat_r; assumption. }
  assert (X1 : V * BigNumber.pow10 (precision props) <= inject_Z B).
  { setoid_replace (inject_Z B)
      with (inject_Z B / BigNumber.pow10 (precision props)
            * BigNumber.pow10 (precision props))
      by (field; intros Z; rewrite Z in HP; discriminate).
    apply Qmult_le_compat_r; [exact Hle | apply Qlt_le_weak; exact HP]. }
  apply Qabs_Qle_condition in N. destruct N as [N1 N2].
  assert (L : inject_Z (-1) < inject_Z (2 * k)).
  { rewrite inject_Z_mult. change (inject_Z (-1)) with (-1). change (inject_Z 2) with 2. lra. }
  assert (U : inject_Z (2 * k) <= inject_Z (2 * B + 1)).
  { rewrite inject_Z_plus, !inject_Z_mult.
    change (inject_Z 1) with 1. change (inject_Z 2) with 2. lra. }
  rewrite <- Zlt_Qlt in L. rewrite <- Zle_Qle in U. lia.
Qed.

(** "50" is valid against the balance 100 x 10^18 and is sent as 50 x 10^18. *)
Lemma validated_amount_within_balance_witness :
  exists (k : Z) (q : Q),
    amountDesired readDecimal (scenario None) request50 = BigNumber.Fin q
    /\ q == inject_Z k /\ (0 <= k <= 100 * 10 ^ 18)%Z.
Proof.
  apply (validated_amount_within_balance readDecimal (scenario None) request50
           (100 * 10 ^ 18) eq_refl).
  vm_compute. reflexivity.
Defined.

(** ** The validators and the amounts shown as available *)

Lemma validate_insufficient (bn : string -> BigNumber.t) (value : string) (ceiling : Q) :
  (if BigNumber.isEqualTo (bnOrZero (bn value)) BigNumber.zero then Message ""
   else if BigNumber.gt (BigNumber.Fin ceiling) BigNumber.zero
           && BigNumber.gt (bnOrZero (bn value)) BigNumber.zero
           && BigNumber.gte (BigNumber.Fin ceiling) (bn value)
        then Valid else Message "common.insufficientFunds")
  = Message "common.insufficientFunds"
  <-> exists V, bn value = BigNumber.Fin V /\ ~ V == 0 /\ (V < 0 \/ ceiling < V).
Proof.
  destruct (bn value) as [V| |n] eqn:E.
  - rewrite bnOrZero_Fin.
    pose proof (hasValidBalance_iff ceiling V) as HV.
    pose proof (isEqualTo_Fin V 0) as HZ. fold BigNumber.zero in HZ.
    destruct (BigNumber.isEqualTo (BigNumber.Fin V) BigNumber.zero).
    + assert (Z : V == 0) by (apply HZ; reflexivity). split; [discriminate|].
      intros (V' & HV' & NZ & _). injection HV' as <-. contradiction.
    + assert (NZ : ~ V == 0) by (intros H; apply HZ in H; discriminate).
      destruct (BigNumber.gt (BigNumber.Fin ceiling) BigNumber.zero
                && BigNumber.gt (BigNumber.Fin V) BigNumber.zero
                && BigNumber.gte (BigNumber.Fin ceiling) (BigNumber.Fin V)).
      * assert (B : 0 < V /\ V <= ceiling) by (apply HV; reflexivity).
        split; [discriminate|].
        intros (V' & HV' & _ & [H|H]); injection HV' as <-; exfalso; lra.
      * split; [|reflexivity]. intros _. exists V. split; [reflexivity|]. split; [exact NZ|].
        destruct (Qlt_le_dec V 0) as [N|N]; [left; exact N|].
        right. apply Qnot_le_lt. intros Hle.
        assert (0 < V) by (destruct (Qle_lt_or_eq _ _ N) as [H|H];
                           [exact H | exfalso; apply NZ; symmetry; exact H]).
        assert (false = true) by (apply HV; split; assumption). discriminate.
  - simpl. split; [discriminate|]. intros (V & HV & _); discriminate.
  - simpl. split; [discriminate|]. intros (V & HV & _); discriminate.
Qed.

(** The two ceilings are the two amounts the form shows as available. *)
Lemma validators_ceilings (bn : string -> BigNumber.t) (props : Props) (value : string) :
  exists A p : Q,
    cryptoAmountAvailable props = BigNumber.Fin A
    /\ bnOrZero (price props) = BigNumber.Fin p
    /\ fiatAmountAvailable props = BigNumber.Fin (A * p)
    /\ validateCryptoAmount bn props value =
       (if BigNumber.isEqualTo (bnOrZero (bn value)) BigNumber.zero then Message ""
        else if BigNumber.gt (BigNumber.Fin A) BigNumber.zero
                && BigNumber.gt (bnOrZero (bn value)) BigNumber.zero
                && BigNumber.gte (BigNumber.Fin A) (bn value)
             then Valid else Message "common.insufficientFunds")
    /\ validateFiatAmount bn props value =
       (if BigNumber.isEqualTo (bnOrZero (bn value)) BigNumber.zero then Message ""
        else if BigNumber.gt (BigNumber.Fin (A * p)) BigNumber.zero
                && BigNumber.gt (bnOrZero (bn value)) BigNumber.zero
                && BigNumber.gte (BigNumber.Fin (A * p)) (bn value)
             then Valid else Message "common.insufficientFunds").
Proof.
  unfold fiatAmountAvailable, cryptoAmountAvailable, validateCryptoAmount, validateFiatAmount.
  destruct (bnOrZero_finite (BigNumber.div (balance props) (unit_ props))) as [A ->].
  destruct (bnOrZero_finite (price props)) as [p ->].
  exists A, p. repeat split; reflexivity.
Qed.

(** X10: each validator accepts exactly what the form shows as available:
    [validateCryptoAmount] returns [true] exactly for a number [V] with
    [0 < V <= cryptoAmountAvailable], [validateFiatAmount] exactly for
    [0 < V <= fiatAmountAvailable]; and when the price is missing, the fiat
    amount available is zero, so the fiat validator accepts nothing. *)
Theorem validators_accept_up_to_available (bn : string -> BigNumber.t) (props : Props)
    (value : string) :
  exists A F : Q,
    cryptoAmountAvailable props = BigNumber.Fin A
    /\ fiatAmountAvailable props = BigNumber.Fin F
    /\ (validateCryptoAmount bn props value = Valid <->
        exists V, bn value = BigNumber.Fin V /\ 0 < V /\ V <= A)
    /\ (validateFiatAmount bn props value = Valid <->
        exists V, bn value = BigNumber.Fin V /\ 0 < V /\ V <= F)
    /\ (BigNumber.isFinite (price props) = false ->
        F == 0 /\ validateFiatAmount bn props value <> Valid).
Proof.
  destruct (validators_ceilings bn props value) as (A & p & HA & Hp & HF & -> & ->).
  exists A, (A * p).
  split; [exact HA|]. split; [exact HF|].
  split; [apply (validate_shape bn value A)|].
  split; [apply (validate_shape bn value (A * p))|].
  intros Hprice. unfold bnOrZero in Hp. rewrite Hprice in Hp.
  injection Hp as <-.
  split; [ring|].
  intros H. apply (proj1 (validate_shape bn value (A * 0))) in H.
  destruct H as (V & _ & Hpos & Hle). lra.
Qed.

(** X11: a validator returns common.insufficientFunds exactly when the text
    reads as a number that is not zero and is either negative or above the
    amount available; for every other text it returns [true] or the empty
    string. *)
Theorem validators_report_insufficient (bn : string -> BigNumber.t) (props : Props)
    (value : string) :
  exists A F : Q,
    cryptoAmountAvailable props = BigNumber.Fin A
    /\ fiatAmountAvailable props = BigNumber.Fin F
    /\ (validateCryptoAmount bn props value = Message "common.insufficientFunds" <->
        exists V, bn value = BigNumber.Fin V /\ ~ V == 0 /\ (V < 0 \/ A < V))
    /\ (validateFiatAmount bn props value = Message "common.insufficientFunds" <->
        exists V, bn value = BigNumber.Fin V /\ ~ V == 0 /\ (V < 0 \/ F < V))
    /\ (validateCryptoAmount bn props value = Valid
        \/ validateCryptoAmount bn props value = Message ""
        \/ validateCryptoAmount bn props value = Message "common.insufficientFunds")
    /\ (validateFiatAmount bn props value = Valid
        \/ validateFiatAmount bn props value = Message ""
        \/ validateFiatAmount bn props value = Message "common.insufficientFunds").
Proof.
  destruct (validators_ceilings bn props value) as (A & p & HA & Hp & HF & -> & ->).
  exists A, (A * p).
  split; [exact HA|]. split; [exact HF|].
  split; [apply validate_insufficient|].
  split; [apply validate_insufficient|].
  split;
    (destruct (BigNumber.isEqualTo _ _); [right; left; reflexivity|];
     destruct (_ && _ && _); [left | right; right]; reflexivity).
Qed.

(** ** A share of the balance, continued *)

Lemma handlePercentClick_trace (props : Props) (percent : Q) :
  exists A : Q,
    cryptoAmountAvailable props = BigNumber.Fin A
    /\ trace (handlePercentClick props percent) =
       [SetValue FiatAmount
          (BigNumber.times
             (BigNumber.Fin (BigNumber.roundQ (precision props) BigNumber.ROUND_DOWN
                               (A * percent)))
             (price props));
        SetValue CryptoAmount
          (BigNumber.Fin (BigNumber.roundQ (precision props) BigNumber.ROUND_DOWN
                            (A * percent)))].
Proof.
  destruct (bnOrZero_finite (BigNumber.div (balance props) (unit_ props))) as [A HA].
  exists A. split; [exact HA|].
  unfold handlePercentClick, cryptoAmountAvailable. rewrite HA. reflexivity.
Qed.

Lemma roundZ_down_integer (q : Q) (z : Z) :
  q == inject_Z z -> BigNumber.roundZ BigNumber.ROUND_DOWN q = z.
Proof.
  intros E. rewrite (roundZ_down_Qeq q (inject_Z z) E).
  unfold BigNumber.roundZ, inject_Z; simpl. apply Z.quot_1_r.
Qed.

Lemma roundQ_down_mono (dp : nat) (x y : Q) :
  0 <= x -> x <= y ->
  BigNumber.roundQ dp BigNumber.ROUND_DOWN x <= BigNumber.roundQ dp BigNumber.ROUND_DOWN y.
Proof.
  intros Hx Hxy. unfold BigNumber.roundQ.
  pose proof (pow10_pos dp) as HP.
  assert (Hx' : 0 <= x * BigNumber.pow10 dp)
    by (apply Qmult_le_0_compat; [exact Hx | apply Qlt_le_weak; exact HP]).
  assert (Hxy' : x * BigNumber.pow10 dp <= y * BigNumber.pow10 dp)
    by (apply Qmult_le_compat_r; [exact Hxy | apply Qlt_le_weak; exact HP]).
  destruct (roundZ_down_bounds (x * BigNumber.pow10 dp)) as [Bx _].
  destruct (roundZ_down_bounds (y * BigNumber.pow10 dp)) as [By _].
  destruct (Bx Hx') as (_ & X1 & _).
  destruct (By (Qle_trans _ _ _ Hx' Hxy')) as (_ & _ & Y2).
  set (s := BigNumber.roundZ BigNumber.ROUND_DOWN (x * BigNumber.pow10 dp)) in *.
  set (t := BigNumber.roundZ BigNumber.ROUND_DOWN (y * BigNumber.pow10 dp)) in *.
  clearbody s t.
  assert (L : inject_Z s < inject_Z (t + 1)).
  { rewrite inject_Z_plus. change (inject_Z 1) with 1. lra. }
  rewrite <- Zlt_Qlt in L.
  apply Qmult_le_compat_r.
  - rewrite <- Zle_Qle. lia.
  - apply Qlt_le_weak, Qinv_lt_0_compat; exact HP.
Qed.

Lemma percentOptions_le_1 (percent : Q) : In percent percentOptions -> percent <= 1.
Proof.
  unfold percentOptions.
  intros [<-|[<-|[<-|[<-|[]]]]]; unfold Qle; simpl; lia.
Qed.

(** X12: for a whole raw balance, clicking 100% writes exactly the crypto
    amount shown as available: cutting to [precision] decimals loses nothing
    of a balance that has no more decimals than that. *)
Theorem handlePercentClick_all (props : Props) (B : Z) :
  balance props = BigNumber.ofZ B ->
  exists A r : Q,
    cryptoAmountAvailable props = BigNumber.Fin A
    /\ trace (handlePercentClick props 1) =
       [SetValue FiatAmount (BigNumber.times (BigNumber.Fin r) (price props));
        SetValue CryptoAmount (BigNumber.Fin r)]
    /\ r == A
    /\ A == inject_Z B / BigNumber.pow10 (precision props).
Proof.
  intros HB.
  destruct (handlePercentClick_trace props 1) as (A & HA & T).
  assert (EA : A == inject_Z B / BigNumber.pow10 (precision props)).
  { unfold cryptoAmountAvailable, unit_, BigNumber.ofZ in *. rewrite HB, div_unit in HA.
    injection HA as <-. reflexivity. }
  exists A. eexists. split; [exact HA|]. split; [exact T|]. split; [|exact EA].
  pose proof (pow10_pos (precision props)) as HP.
  assert (NZ : ~ BigNumber.pow10 (precision props) == 0)
    by (intros Z; rewrite Z in HP; discriminate).
  unfold BigNumber.roundQ.
  rewrite (roundZ_down_integer _ B).
  - rewrite EA. reflexivity.
  - rewrite EA. field. exact NZ.
Qed.

(** 100% of the balance 100 x 10^18 at precision 18 is 100. *)
Lemma handlePercentClick_all_witness :
  exists r : Q,
    trace (handlePercentClick (scenario None) 1) =
      [SetValue FiatAmount (BigNumber.times (BigNumber.Fin r) (BigNumber.Fin 2));
       SetValue CryptoAmount (BigNumber.Fin r)]
    /\ r == 100.
Proof.
  destruct (handlePercentClick_all (scenario None) (100 * 10 ^ 18) eq_refl)
    as (A & r & _ & T & Hr & HA).
  exists r. split; [exact T|].
  rewrite Hr, HA. vm_compute. reflexivity.
Defined.

(** X13: for a balance that is not negative, the crypto amount [r] a percent
    option writes is never above the amount shown as available, a larger
    option never writes a smaller amount, and a text that reads as [r] is
    never refused by [validateCryptoAmount] as insufficient; with a price
    that is not negative, a text for the fiat amount written ([r] times the
    price, or no number when the price is missing) is never refused by
    [validateFiatAmount] either. *)
Theorem percent_amount_is_accepted (bn : string -> BigNumber.t) (props : Props)
    (percent : Q) (B : Q) (c f : BigNumber.t) :
  In percent percentOptions ->
  balance props = BigNumber.Fin B ->
  0 <= B ->
  (forall p, price props = BigNumber.Fin p -> 0 <= p) ->
  trace (handlePercentClick props percent) = [SetValue FiatAmount f; SetValue CryptoAmount c] ->
  exists A r : Q,
    cryptoAmountAvailable props = BigNumber.Fin A
    /\ c = BigNumber.Fin r /\ f = BigNumber.times (BigNumber.Fin r) (price props)
    /\ 0 <= r /\ r <= A
    /\ (forall percent' c' f',
          In percent' percentOptions -> percent <= percent' ->
          trace (handlePercentClick props percent')
            = [SetValue FiatAmount f'; SetValue CryptoAmount c'] ->
          BigNumber.gte c' c = true)
    /\ (forall value v, bn value = BigNumber.Fin v -> v == r ->
          validateCryptoAmount bn props value <> Message "common.insufficientFunds")
    /\ (forall value,
          (forall v, bn value = BigNumber.Fin v ->
                     exists p, price props = BigNumber.Fin p /\ v == r * p) ->
          validateFiatAmount bn props value <> Message "common.insufficientFunds").
Proof.
  intros Hin HB HB0 Hprice T.
  destruct (handlePercentClick_trace props percent) as (A & HA & T').
  rewrite T' in T. injection T as Hf Hc.
  pose proof (pow10_pos (precision props)) as HP.
  assert (EA : A == B / BigNumber.pow10 (precision props)).
  { unfold cryptoAmountAvailable, unit_ in HA. rewrite HB, div_unit in HA.
    injection HA as <-. reflexivity. }
  assert (HA0 : 0 <= A).
  { rewrite EA. apply Qle_shift_div_l; [exact HP | lra]. }
  pose proof (percentOptions_nonneg percent Hin) as P0.
  pose proof (percentOptions_le_1 percent Hin) as P1.
  assert (X0 : 0 <= A * percent) by (apply Qmult_le_0_compat; assumption).
  assert (X1 : A * percent <= A).
  { setoid_replace A with (A * 1) at 2 by ring.
    rewrite (Qmult_comm A percent), (Qmult_comm A 1).
    apply Qmult_le_compat_r; assumption. }
  destruct (roundQ_down_bounds (precision props) (A * percent)) as [Bp _].
  destruct (Bp X0) as (R0 & R1 & _).
  set (r := BigNumber.roundQ (precision props) BigNumber.ROUND_DOWN (A * percent)) in *.
  assert (RA : r <= A) by (eapply Qle_trans; eassumption).
  exists A, r.
  split; [exact HA|]. split; [symmetry; exact Hc|]. split; [symmetry; exact Hf|].
  split; [exact R0|]. split; [exact RA|].
  split; [|split].
  - intros percent' c' f' Hin' Hle T2.
    destruct (handlePercentClick_trace props percent') as (A' & HA' & T2').
    rewrite HA in HA'. injection HA' as <-.
    rewrite T2' in T2. injection T2 as _ Hc'.
    rewrite <- Hc, <- Hc'. apply gte_Fin. subst r.
    apply roundQ_down_mono; [exact X0|].
    rewrite (Qmult_comm A percent), (Qmult_comm A percent').
    apply Qmult_le_compat_r; assumption.
  - intros value v Hv Ev.
    destruct (validators_ceilings bn props value) as (A' & p & HA' & _ & _ & -> & _).
    rewrite HA in HA'. injection HA' as <-.
    intros H. apply validate_insufficient in H.
    destruct H as (V & HV & _ & N). rewrite Hv in HV. injection HV as <-.
    destruct N; lra.
  - intros value Hv.
    destruct (validators_ceilings bn props value) as (A' & p & HA' & Hp & _ & _ & ->).
    rewrite HA in HA'. injection HA' as <-.
    intros H. apply validate_insufficient in H.
    destruct H as (V & HV & _ & N).
    destruct (Hv V HV) as (p' & Ep & EV).
    rewrite Ep, bnOrZero_Fin in Hp. injection Hp as <-.
    pose proof (Hprice p' Ep) as Hp0.
    assert (0 <= r * p') by (apply Qmult_le_0_compat; assumption).
    assert (r * p' <= A * p') by (apply Qmult_le_compat_r; assumption).
    destruct N; lra.
Qed.

(** Half of the balance 100 at the price 2: "50" and "100" pass validation. *)
Lemma percent_amount_is_accepted_witness :
  validateCryptoAmount readDecimal (scenario None) "50" <> Message "common.insufficientFunds"
  /\ validateFiatAmount readDecimal (scenario None) "100" <> Message "common.insufficientFunds".
Proof.
  destruct (percent_amount_is_accepted readDecimal (scenario None) 0.5
              (inject_Z (100 * 10 ^ 18)) _ _
              (or_intror (or_introl eq_refl)) eq_refl
              ltac:(vm_compute; discriminate)
              ltac:(intros p H; injection H as <-; vm_compute; discriminate)
              eq_refl)
    as (A & r & _ & Hc & _ & _ & _ & _ & VC & VF).
  vm_compute in Hc. injection Hc as <-.
  split.
  - apply (VC "50" 50 eq_refl). vm_compute. reflexivity.
  - apply (VF "100"). intros v Hv. exists 2. split; [reflexivity|].
    vm_compute in Hv. injection Hv as <-. vm_compute. reflexivity.
Defined.

(** ** The reserve message *)

Lemma prefix_append (sub s : string) :
  String.prefix sub s = true <-> exists post, s = (sub ++ post)%string.
Proof.
  revert s. induction sub as [|a sub IH]; intros s.
  - split; [intros _; exists s; reflexivity | intros _; destruct s; reflexivity].
  - destruct s as [|b s]; simpl.
    + split; [discriminate | intros [post H]; discriminate].
    + destruct (ascii_dec a b) as [->|N].
      * rewrite IH. split; intros [post H]; exists post; congruence.
      * split; [discriminate | intros [post H]; congruence].
Qed.

Lemma includes_spec (s sub : string) :
  includes s sub = true <-> exists pre post, s = (pre ++ sub ++ post)%string.
Proof.
  induction s as [|c s IH].
  - cbn [includes]. destruct (String.prefix sub "") eqn:P.
    + split; [|reflexivity]. intros _.
      apply prefix_append in P. destruct P as [post P]. exists "", post. exact P.
    + split; [discriminate|]. intros (pre & post & H).
      destruct pre as [|? ?]; [|discriminate]. simpl in H.
      assert (String.prefix sub "" = true) by (apply prefix_append; eauto). congruence.
  - cbn [includes]. destruct (String.prefix sub (String c s)) eqn:P.
    + split; [|reflexivity]. intros _.
      apply prefix_append in P. destruct P as [post P]. exists "", post. exact P.
    + rewrite IH. split.
      * intros (pre & post & H). exists (String c pre), post. simpl. congruence.
      * intros (pre & post & H). destruct pre as [|c' pre].
        -- simpl in H.
           assert (String.prefix sub (String c s) = true) by (apply prefix_append; eauto).
           congruence.
        -- simpl in H. injection H as _ H. eauto.
Qed.

(** X14: the withdraw estimate takes a caught value for the empty reserve
    exactly when it is an [Error] whose message has the text "Not enough funds
    in reserve" somewhere inside it, in these very letters; a thrown value
    that is not an [Error] never counts, whatever it says. *)
Theorem fundsError_iff (error : Thrown) :
  fundsError error = true <->
  exists pre post,
    error = ErrorObject (pre ++ "Not enough funds in reserve" ++ post)%string.
Proof.
  destruct error as [message|value]; unfold fundsError.
  - rewrite includes_spec. split; intros (pre & post & H); exists pre, post.
    + rewrite H. reflexivity.
    + injection H as H. exact H.
  - split; [discriminate | intros (pre & post & H); discriminate].
Qed.
